(** * Verification of the F1 23 telemetry packet codec

    A shallow embedding of [f1_23_telemetry/packets.py] and
    [f1_23_telemetry/listener.py].  The packets are [ctypes] structures:
    every class deriving from [Packet] is a little-endian structure with
    [_pack_ = 1] (inherited from the base class), so its fields sit at
    their cumulative offsets with no padding.  An instance is its class
    together with the bytes it owns; reading an attribute decodes the
    bytes at the offset of the field bound to that name. *)

From Stdlib Require Import ZArith List Strings.String Strings.Byte Lia.
From Stdlib Require Import Floats.SpecFloat.
From stdpp Require Import base list strings gmap.

Local Open Scope string_scope.
Local Open Scope Z_scope.

(** ** Exceptions and the error monad *)

(** The Python exceptions the modelled code can raise.  [ValueError]
    carries the two lengths of the message of [from_buffer_copy]:
    "Buffer size too small (actual instead of at least expected bytes)".
    [RecursionError] is what the depth-bounded recursion of [to_dict]
    raises when its bound is exhausted, which never happens on a layout
    (lemma [to_dict_raise_inv]). *)
Inductive exn : Type :=
  | ValueError (actual expected : nat)
  | KeyError (key : Z * Z * Z)
  | AttributeError (name : string)
  | UnicodeDecodeError (position : nat)
  | RecursionError.

Inductive result (A : Type) : Type :=
  | Ok (a : A)
  | Raise (e : exn).
Arguments Ok {A} a.
Arguments Raise {A} e.

#[global] Instance result_ret : MRet result := fun _ a => Ok a.

#[global] Instance result_bind : MBind result := fun _ _ k r =>
  match r with
  | Ok a => k a
  | Raise e => Raise e
  end.

(** ** ctypes layouts *)

(** [Packet name fields] is a class deriving from [Packet]
    ([ctypes.LittleEndianStructure] with [_pack_ = 1] and [PacketMixin]);
    [PacketUnion name fields] is a class deriving from [ctypes.Union] and
    [PacketMixin]; [Array t n] is the ctypes type [t * n]. *)
#[local] Unset Elimination Schemes.
Inductive ctype : Type :=
  | c_char | c_int8 | c_uint8 | c_int16 | c_uint16 | c_uint32 | c_uint64
  | c_float | c_double
  | Array (elt : ctype) (n : nat)
  | Packet (name : string) (_fields_ : list (string * ctype))
  | PacketUnion (name : string) (_fields_ : list (string * ctype)).
#[local] Set Elimination Schemes.

(** [ctypes.sizeof].  With [_pack_ = 1] a structure is the sum of its
    fields.  A union is as large as its largest member; its members here
    are all packed structures (alignment 1), so no tail padding is added. *)
Fixpoint sizeof (t : ctype) : nat :=
  match t with
  | c_char | c_int8 | c_uint8 => 1
  | c_int16 | c_uint16 => 2
  | c_uint32 | c_float => 4
  | c_uint64 | c_double => 8
  | Array elt n => n * sizeof elt
  | Packet _ fs =>
      (fix sum (fs : list (string * ctype)) : nat :=
         match fs with
         | [] => 0
         | (_, ft) :: rest => sizeof ft + sum rest
         end) fs
  | PacketUnion _ fs =>
      (fix largest (fs : list (string * ctype)) : nat :=
         match fs with
         | [] => 0
         | (_, ft) :: rest => Nat.max (sizeof ft) (largest rest)
         end) fs
  end%nat.

(** ** The packet classes of [packets.py], in source order *)

(* class PacketHeader(Packet) *)
Definition PacketHeader : ctype :=
  Packet "PacketHeader"
    [ ("packet_format", c_int16);
      ("game_year", c_uint8);
      ("game_major_version", c_uint8);
      ("game_minor_version", c_uint8);
      ("packet_version", c_uint8);
      ("packet_id", c_uint8);
      ("session_uid", c_uint64);
      ("session_time", c_float);
      ("frame_identifier", c_uint32);
      ("overall_frame_identifier", c_uint32);
      ("player_car_index", c_uint8);
      ("secondary_player_car_index", c_uint8) ].

(* class CarMotionData(Packet) *)
Definition CarMotionData : ctype :=
  Packet "CarMotionData"
    [ ("world_position_x", c_float);
      ("world_position_y", c_float);
      ("world_position_z", c_float);
      ("world_velocity_x", c_float);
      ("world_velocity_y", c_float);
      ("world_velocity_z", c_float);
      ("world_forward_dir_x", c_int16);
      ("world_forward_dir_y", c_int16);
      ("world_forward_dir_z", c_int16);
      ("world_right_dir_x", c_int16);
      ("world_right_dir_y", c_int16);
      ("world_right_dir_z", c_int16);
      ("g_force_lateral", c_float);
      ("g_force_longitudinal", c_float);
      ("g_force_vertical", c_float);
      ("yaw", c_float);
      ("pitch", c_float);
      ("roll", c_float) ].

(* class PacketMotionData(Packet) *)
Definition PacketMotionData : ctype :=
  Packet "PacketMotionData"
    [ ("header", PacketHeader);
      ("car_motion_data", Array CarMotionData 22) ].

(* class MarshalZone(Packet) *)
Definition MarshalZone : ctype :=
  Packet "MarshalZone"
    [ ("zone_start", c_float);
      ("zone_flag", c_int8) ].

(* class WeatherForecastSample(Packet) *)
Definition WeatherForecastSample : ctype :=
  Packet "WeatherForecastSample"
    [ ("session_type", c_uint8);
      ("time_offset", c_uint8);
      ("weather", c_uint8);
      ("track_temperature", c_int8);
      ("track_temperature_change", c_int8);
      ("air_temperature", c_int8);
      ("air_temperature_change", c_int8);
      ("rain_percentage", c_uint8) ].

(* class PacketSessionData(Packet) *)
Definition PacketSessionData : ctype :=
  Packet "PacketSessionData"
    [ ("header", PacketHeader);
      ("weather", c_uint8);
      ("track_temperature", c_int8);
      ("air_temperature", c_int8);
      ("total_laps", c_uint8);
      ("track_length", c_uint16);
      ("session_type", c_uint8);
      ("track_id", c_int8);
      ("formula", c_uint8);
      ("session_time_left", c_uint16);
      ("session_duration", c_uint16);
      ("pit_speed_limit", c_uint8);
      ("game_paused", c_uint8);
      ("is_spectating", c_uint8);
      ("spectator_car_index", c_uint8);
      ("sli_pro_native_support", c_uint8);
      ("num_marshal_zones", c_uint8);
      ("marshal_zones", Array MarshalZone 21);
      ("safety_car_status", c_uint8);
      ("network_game", c_uint8);
      ("num_weather_forecast_samples", c_uint8);
      ("weather_forecast_samples", Array WeatherForecastSample 56);
      ("forecast_accuracy", c_uint8);
      ("ai_difficulty", c_uint8);
      ("season_link_identifier", c_uint32);
      ("weekend_link_identifier", c_uint32);
      ("session_link_identifier", c_uint32);
      ("pit_stop_window_ideal_lap", c_uint8);
      ("pit_stop_window_latest_lap", c_uint8);
      ("pit_stop_rejoin_position", c_uint8);
      ("steering_assist", c_uint8);
      ("braking_assist", c_uint8);
      ("gearbox_assist", c_uint8);
      ("pit_assist", c_uint8);
      ("pit_release_assist", c_uint8);
      ("ers_assist", c_uint8);
      ("drs_assist", c_uint8);
      ("dynamic_racing_line", c_uint8);
      ("dynamic_racing_line_type", c_uint8);
      ("game_mode", c_uint8);
      ("rule_set", c_uint8);
      ("time_of_day", c_uint32);
      ("session_length", c_uint8);
      ("speed_units_lead_player", c_uint8);
      ("temperature_units_lead_player", c_uint8);
      ("speed_units_secondary_player", c_uint8);
      ("temperature_units_secondary_player", c_uint8);
      ("num_safety_car_periods", c_uint8);
      ("num_virtual_safety_car_periods", c_uint8);
      ("num_red_flag_periods", c_uint8) ].

(* class LapData(Packet) *)
Definition LapData : ctype :=
  Packet "LapData"
    [ ("last_lap_time_in_ms", c_uint32);
      ("current_lap_time_in_ms", c_uint32);
      ("sector_1_time_in_ms", c_uint16);
      ("sector_1_time_minutes", c_uint8);
      ("sector_2_time_in_ms", c_uint16);
      ("sector_2_time_minutes", c_uint8);
      ("delta_to_car_in_front_in_ms", c_uint16);
      ("delta_to_race_leader_in_ms", c_uint16);
      ("lap_distance", c_float);
      ("total_distance", c_float);
      ("safety_car_delta", c_float);
      ("car_position", c_uint8);
      ("current_lap_num", c_uint8);
      ("pit_status", c_uint8);
      ("num_pit_stops", c_uint8);
      ("sector", c_uint8);
      ("current_lap_invalid", c_uint8);
      ("penalties", c_uint8);
      ("total_warnings", c_uint8);
      ("corner_cutting_warnings", c_uint8);
      ("num_unserved_drive_through_pens", c_uint8);
      ("num_unserved_stop_go_pens", c_uint8);
      ("grid_position", c_uint8);
      ("driver_status", c_uint8);
      ("result_status", c_uint8);
      ("pit_lane_timer_active", c_uint8);
      ("pit_lane_time_in_lane_in_ms", c_uint16);
      ("pit_stop_timer_in_ms", c_uint16);
      ("pit_stop_should_serve_pen", c_uint8) ].

(* class PacketLapData(Packet) *)
Definition PacketLapData : ctype :=
  Packet "PacketLapData"
    [ ("header", PacketHeader);
      ("lap_data", Array LapData 22);
      ("time_trial_pb_car_idx", c_uint8);
      ("time_trial_rival_car_idx", c_uint8) ].

(* class FastestLap(Packet) *)
Definition FastestLap : ctype :=
  Packet "FastestLap"
    [ ("vehicle_idx", c_uint8);
      ("lap_time", c_float) ].

(* class Retirement(Packet) *)
Definition Retirement : ctype :=
  Packet "Retirement"
    [ ("vehicle_idx", c_uint8) ].

(* class TeamMateInPits(Packet) *)
Definition TeamMateInPits : ctype :=
  Packet "TeamMateInPits"
    [ ("vehicle_idx", c_uint8) ].

(* class RaceWinner(Packet) *)
Definition RaceWinner : ctype :=
  Packet "RaceWinner"
    [ ("vehicle_idx", c_uint8) ].

(* class Penalty(Packet) *)
Definition Penalty : ctype :=
  Packet "Penalty"
    [ ("penalty_type", c_uint8);
      ("infringement_type", c_uint8);
      ("vehicle_idx", c_uint8);
      ("other_vehicle_idx", c_uint8);
      ("time", c_uint8);
      ("lap_num", c_uint8);
      ("places_gained", c_uint8) ].

(* class SpeedTrap(Packet) *)
Definition SpeedTrap : ctype :=
  Packet "SpeedTrap"
    [ ("vehicle_idx", c_uint8);
      ("speed", c_float);
      ("overall_fastest_in_session", c_uint8);
      ("is_driver_fastest_in_session", c_uint8);
      ("fastest_vehicle_idx_in_sSession", c_uint8);
      ("fastest_speed_in_session", c_float) ].

(* class StartLights(Packet) *)
Definition StartLights : ctype :=
  Packet "StartLights"
    [ ("num_lights", c_uint8) ].

(* class DriveThroughPenaltyServed(Packet) *)
Definition DriveThroughPenaltyServed : ctype :=
  Packet "DriveThroughPenaltyServed"
    [ ("vehicle_idx", c_uint8) ].

(* class StopGoPenaltyServed(Packet) *)
Definition StopGoPenaltyServed : ctype :=
  Packet "StopGoPenaltyServed"
    [ ("vehicle_idx", c_uint8) ].

(* class Flashback(Packet) *)
Definition Flashback : ctype :=
  Packet "Flashback"
    [ ("flashback_frame_identifier", c_uint32);
      ("flashback_session_time", c_float) ].

(* class Buttons(Packet) *)
Definition Buttons : ctype :=
  Packet "Buttons"
    [ ("button_status", c_uint32) ].

(* class OverTake(Packet) *)
Definition OverTake : ctype :=
  Packet "OverTake"
    [ ("overtaking_vehicle_idx", c_uint8);
      ("being_overtaken_vehicle_idx", c_uint8) ].

(* class EventDataDetails(ctypes.Union, PacketMixin) *)
Definition EventDataDetails : ctype :=
  PacketUnion "EventDataDetails"
    [ ("fastest_lap", FastestLap);
      ("retirement", Retirement);
      ("team_mate_in_pits", TeamMateInPits);
      ("race_winner", RaceWinner);
      ("penalty", Penalty);
      ("speed_trap", SpeedTrap);
      ("start_lights", StartLights);
      ("drive_through_penalty_served", DriveThroughPenaltyServed);
      ("stop_go_penalty_served", StopGoPenaltyServed);
      ("flashback", Flashback);
      ("buttons", Buttons);
      ("overtake", OverTake) ].

(* class PacketEventData(Packet) *)
Definition PacketEventData : ctype :=
  Packet "PacketEventData"
    [ ("header", PacketHeader);
      ("event_string_code", Array c_uint8 4);
      ("event_details", EventDataDetails) ].

(* class ParticipantData(Packet) *)
Definition ParticipantData : ctype :=
  Packet "ParticipantData"
    [ ("ai_controlled", c_uint8);
      ("driver_id", c_uint8);
      ("network_id", c_uint8);
      ("team_id", c_uint8);
      ("my_team", c_uint8);
      ("race_number", c_uint8);
      ("nationality", c_uint8);
      ("name", Array c_char 48);
      ("your_telemetry", c_uint8);
      ("show_online_names", c_uint8);
      ("platform", c_uint8) ].

(* class PacketParticipantsData(Packet) *)
Definition PacketParticipantsData : ctype :=
  Packet "PacketParticipantsData"
    [ ("header", PacketHeader);
      ("num_active_cars", c_uint8);
      ("participants", Array ParticipantData 22) ].

(* class CarSetupData(Packet) *)
Definition CarSetupData : ctype :=
  Packet "CarSetupData"
    [ ("front_wing", c_uint8);
      ("rear_wing", c_uint8);
      ("on_throttle", c_uint8);
      ("off_throttle", c_uint8);
      ("front_camber", c_float);
      ("rear_camber", c_float);
      ("front_toe", c_float);
      ("rear_toe", c_float);
      ("front_suspension", c_uint8);
      ("rear_suspension", c_uint8);
      ("front_anti_roll_bar", c_uint8);
      ("rear_anti_roll_bar", c_uint8);
      ("front_suspension_height", c_uint8);
      ("rear_suspension_height", c_uint8);
      ("brake_pressure", c_uint8);
      ("brake_bias", c_uint8);
      ("rear_left_tyre_pressure", c_float);
      ("rear_right_tyre_pressure", c_float);
      ("front_left_tyre_pressure", c_float);
      ("front_right_tyre_pressure", c_float);
      ("ballast", c_uint8);
      ("fuel_load", c_float) ].

(* class PacketCarSetupData(Packet) *)
Definition PacketCarSetupData : ctype :=
  Packet "PacketCarSetupData"
    [ ("header", PacketHeader);
      ("car_setups", Array CarSetupData 22) ].

(* class CarTelemetryData(Packet) *)
Definition CarTelemetryData : ctype :=
  Packet "CarTelemetryData"
    [ ("speed", c_uint16);
      ("throttle", c_float);
      ("steer", c_float);
      ("brake", c_float);
      ("clutch", c_uint8);
      ("gear", c_int8);
      ("engine_rpm", c_uint16);
      ("drs", c_uint8);
      ("rev_lights_percent", c_uint8);
      ("rev_lights_bit_value", c_uint16);
      ("brakes_temperature", Array c_uint16 4);
      ("tyres_surface_temperature", Array c_uint8 4);
      ("tyres_inner_temperature", Array c_uint8 4);
      ("engine_temperature", c_uint16);
      ("tyres_pressure", Array c_float 4);
      ("surface_type", Array c_uint8 4) ].

(* class PacketCarTelemetryData(Packet) *)
Definition PacketCarTelemetryData : ctype :=
  Packet "PacketCarTelemetryData"
    [ ("header", PacketHeader);
      ("car_telemetry_data", Array CarTelemetryData 22);
      ("mfd_panel_index", c_uint8);
      ("mfd_panel_index_secondary_player", c_uint8);
      ("suggested_gear", c_int8) ].

(* class CarStatusData(Packet) *)
Definition CarStatusData : ctype :=
  Packet "CarStatusData"
    [ ("traction_control", c_uint8);
      ("anti_lock_brakes", c_uint8);
      ("fuel_mix", c_uint8);
      ("front_brake_bias", c_uint8);
      ("pit_limiter_status", c_uint8);
      ("fuel_in_tank", c_float);
      ("fuel_capacity", c_float);
      ("fuel_remaining_laps", c_float);
      ("max_rpm", c_uint16);
      ("idle_rpm", c_uint16);
      ("max_gears", c_uint8);
      ("drs_allowed", c_uint8);
      ("drs_activation_distance", c_uint16);
      ("actual_tyre_compound", c_uint8);
      ("visual_tyre_compound", c_uint8);
      ("tyres_age_laps", c_uint8);
      ("vehicle_fia_flags", c_int8);
      ("engine_power_ice", c_float);
      ("engine_power_mguk", c_float);
      ("ers_store_energy", c_float);
      ("ers_deploy_mode", c_uint8);
      ("ers_harvested_this_lap_mguk", c_float);
      ("ers_harvested_this_lap_mguh", c_float);
      ("ers_deployed_this_lap", c_float);
      ("network_paused", c_uint8) ].

(* class PacketCarStatusData(Packet) *)
Definition PacketCarStatusData : ctype :=
  Packet "PacketCarStatusData"
    [ ("header", PacketHeader);
      ("car_status_data", Array CarStatusData 22) ].

(* class FinalClassificationData(Packet) *)
Definition FinalClassificationData : ctype :=
  Packet "FinalClassificationData"
    [ ("position", c_uint8);
      ("num_laps", c_uint8);
      ("grid_position", c_uint8);
      ("points", c_uint8);
      ("num_pit_stops", c_uint8);
      ("result_status", c_uint8);
      ("best_lap_time_in_ms", c_uint32);
      ("total_race_time", c_double);
      ("penalties_time", c_uint8);
      ("num_penalties", c_uint8);
      ("num_tyre_stints", c_uint8);
      ("tyre_stints_actual", Array c_uint8 8);
      ("tyre_stints_visual", Array c_uint8 8);
      ("tyre_stints_end_laps", Array c_uint8 8) ].

(* class PacketFinalClassificationData(Packet) *)
Definition PacketFinalClassificationData : ctype :=
  Packet "PacketFinalClassificationData"
    [ ("header", PacketHeader);
      ("num_cars", c_uint8);
      ("classification_data", Array FinalClassificationData 22) ].

(* class LobbyInfoData(Packet) *)
Definition LobbyInfoData : ctype :=
  Packet "LobbyInfoData"
    [ ("ai_controlled", c_uint8);
      ("team_id", c_uint8);
      ("nationality", c_uint8);
      ("platform", c_uint8);
      ("name", Array c_char 48);
      ("car_number", c_uint8);
      ("ready_status", c_uint8) ].

(* class PacketLobbyInfoData(Packet) *)
Definition PacketLobbyInfoData : ctype :=
  Packet "PacketLobbyInfoData"
    [ ("header", PacketHeader);
      ("num_players", c_uint8);
      ("lobby_players", Array LobbyInfoData 22) ].

(* class CarDamageData(Packet) *)
Definition CarDamageData : ctype :=
  Packet "CarDamageData"
    [ ("tyres_wear", Array c_float 4);
      ("tyres_damage", Array c_uint8 4);
      ("brakes_damage", Array c_uint8 4);
      ("front_left_wing_damage", c_uint8);
      ("front_right_wing_damage", c_uint8);
      ("rear_wing_damage", c_uint8);
      ("floor_damage", c_uint8);
      ("diffuser_damage", c_uint8);
      ("sidepod_damage", c_uint8);
      ("drs_fault", c_uint8);
      ("ers_fault", c_uint8);
      ("gearbox_damage", c_uint8);
      ("engined_damage", c_uint8);
      ("engine_mguh_wear", c_uint8);
      ("engine_energy_store_wear", c_uint8);
      ("engine_control_electronics_wear", c_uint8);
      ("engine_internal_combustion_engine_wear", c_uint8);
      ("engine_mguk_wear", c_uint8);
      ("engine_turbo_charger_wear", c_uint8);
      ("engine_blown", c_uint8);
      ("engine_seized", c_uint8) ].

(* class PacketCarDamageData(Packet) *)
Definition PacketCarDamageData : ctype :=
  Packet "PacketCarDamageData"
    [ ("header", PacketHeader);
      ("car_damage_data", Array CarDamageData 22) ].

(* class LapHistoryData(Packet) *)
Definition LapHistoryData : ctype :=
  Packet "LapHistoryData"
    [ ("lap_time_in_ms", c_uint32);
      ("sector1_time_in_ms", c_uint16);
      ("sector1_time_minutes", c_uint8);
      ("sector2_time_in_ms", c_uint16);
      ("sector2_time_minutes", c_uint8);
      ("sector3_time_in_ms", c_uint16);
      ("sector1_time_minutes", c_uint8);
      ("lap_valid_bit_flags", c_uint8) ].

(* class TyreStintHistoryData(Packet) *)
Definition TyreStintHistoryData : ctype :=
  Packet "TyreStintHistoryData"
    [ ("end_lap", c_uint8);
      ("tyre_actual_compound", c_uint8);
      ("tyre_visual_compound", c_uint8) ].

(* class PacketSessionHistoryData(Packet) *)
Definition PacketSessionHistoryData : ctype :=
  Packet "PacketSessionHistoryData"
    [ ("header", PacketHeader);
      ("car_idx", c_uint8);
      ("num_laps", c_uint8);
      ("num_tyre_stints", c_uint8);
      ("best_lap_time_lap_num", c_uint8);
      ("best_sector1_lap_num", c_uint8);
      ("best_sector2_lap_num", c_uint8);
      ("best_sector3_lap_num", c_uint8);
      ("lap_history_data", Array LapHistoryData 100);
      ("tyre_stints_history_data", Array TyreStintHistoryData 8) ].

(* class TyreSetData(Packet) *)
Definition TyreSetData : ctype :=
  Packet "TyreSetData"
    [ ("actual_tyre_compound", c_uint8);
      ("visual_tyre_compound", c_uint8);
      ("wear", c_uint8);
      ("available", c_uint8);
      ("recommended_session", c_uint8);
      ("life_span", c_uint8);
      ("usable_life", c_uint8);
      ("lap_delta_time", c_uint16);
      ("fitted", c_uint8) ].

(* class PacketTyreSetsData(Packet) *)
Definition PacketTyreSetsData : ctype :=
  Packet "PacketTyreSetsData"
    [ ("header", PacketHeader);
      ("car_idx", c_uint8);
      ("tyre_set_data", Array TyreSetData 20);
      ("fitted_idx", c_uint8) ].

(* class PacketMotionExData(Packet) *)
Definition PacketMotionExData : ctype :=
  Packet "PacketMotionExData"
    [ ("header", PacketHeader);
      ("m_suspensionPosition", Array c_float 4);
      ("m_suspensionVelocity", Array c_float 4);
      ("m_suspensionAcceleration", Array c_float 4);
      ("m_wheelSpeed", Array c_float 4);
      ("m_wheelSlipRatio", Array c_float 4);
      ("m_wheelSlipAngle", Array c_float 4);
      ("m_wheelLatForce", Array c_float 4);
      ("m_wheelLongForce", Array c_float 4);
      ("m_heightOfCOGAboveGround", c_float);
      ("m_localVelocityX", c_float);
      ("m_localVelocityY", c_float);
      ("m_localVelocityZ", c_float);
      ("m_angularVelocityX", c_float);
      ("m_angularVelocityY", c_float);
      ("m_angularVelocityZ", c_float);
      ("m_angularAccelerationX", c_float);
      ("m_angularAccelerationY", c_float);
      ("m_angularAccelerationZ", c_float);
      ("m_frontWheelsAngle", c_float);
      ("m_wheelVertForce", c_float) ].


(** The dispatch table, a Python dict keyed by
    [(packet_format, packet_version, packet_id)]. *)
Definition HEADER_FIELD_TO_PACKET_TYPE : gmap (Z * Z * Z) ctype :=
  list_to_map
    [ ((2023, 1, 0), PacketMotionData);
      ((2023, 1, 1), PacketSessionData);
      ((2023, 1, 2), PacketLapData);
      ((2023, 1, 3), PacketEventData);
      ((2023, 1, 4), PacketParticipantsData);
      ((2023, 1, 5), PacketCarSetupData);
      ((2023, 1, 6), PacketCarTelemetryData);
      ((2023, 1, 7), PacketCarStatusData);
      ((2023, 1, 8), PacketFinalClassificationData);
      ((2023, 1, 9), PacketLobbyInfoData);
      ((2023, 1, 10), PacketCarDamageData);
      ((2023, 1, 11), PacketSessionHistoryData);
      ((2023, 1, 12), PacketTyreSetsData);
      ((2023, 1, 13), PacketMotionExData) ].

(** ** Instances and raw field access *)

(** A ctypes instance: its class and the bytes it owns. *)
Record cdata : Type := CData { cls : ctype; raw : list byte }.

(** The Python values the modelled code handles.  A [str] is the list of
    its code points; a [dict] keeps its keys in insertion order. *)
#[local] Unset Elimination Schemes.
Inductive pyvalue : Type :=
  | PyInt (n : Z)
  | PyFloat (x : spec_float)
  | PyBytes (b : list byte)
  | PyStr (s : list Z)
  | PyList (items : list pyvalue)
  | PyDict (entries : list (string * pyvalue))
  | PyCData (c : cdata).
#[local] Set Elimination Schemes.

Definition byte_val (b : byte) : Z := Z.of_N (Byte.to_N b).

(** Little-endian unsigned value of a byte string. *)
Fixpoint int_from_bytes_le (bs : list byte) : Z :=
  match bs with
  | [] => 0
  | b :: rest => byte_val b + 256 * int_from_bytes_le rest
  end.

(** Two's complement reading of a [bits]-bit unsigned value. *)
Definition to_signed (bits : Z) (u : Z) : Z :=
  if u <? 2 ^ (bits - 1) then u else u - 2 ^ bits.

(** IEEE-754 decoding of a bit pattern with [mant] fraction bits and
    [ebits] exponent bits. *)
Definition float_of_bits (mant ebits : Z) (u : Z) : spec_float :=
  let frac := u mod 2 ^ mant in
  let e := (u / 2 ^ mant) mod 2 ^ ebits in
  let s := Z.odd (u / 2 ^ (mant + ebits)) in
  let bias := 2 ^ (ebits - 1) - 1 in
  if e =? 2 ^ ebits - 1 then
    if frac =? 0 then S754_infinity s else S754_nan
  else if e =? 0 then
    match frac with
    | Zpos m => S754_finite s m (1 - bias - mant)
    | _ => S754_zero s
    end
  else
    match frac + 2 ^ mant with
    | Zpos m => S754_finite s m (e - bias - mant)
    | _ => S754_nan
    end.

(** A Python float is a binary64; a decoded binary32 converts exactly. *)
Definition as_double (x : spec_float) : spec_float :=
  match x with
  | S754_finite s m e => binary_round 53 1024 s m e
  | _ => x
  end.

(** [c_char * n] fields read as [bytes] cut at the first NUL. *)
Fixpoint until_nul (bs : list byte) : list byte :=
  match bs with
  | [] => []
  | b :: rest => if (byte_val b =? 0) then [] else b :: until_nul rest
  end.

(** The ctypes getter of a field or array element of type [t] from the
    [sizeof t] bytes [bs] it occupies. *)
Definition getfunc (t : ctype) (bs : list byte) : pyvalue :=
  match t with
  | c_char => PyBytes bs
  | c_uint8 | c_uint16 | c_uint32 | c_uint64 => PyInt (int_from_bytes_le bs)
  | c_int8 => PyInt (to_signed 8 (int_from_bytes_le bs))
  | c_int16 => PyInt (to_signed 16 (int_from_bytes_le bs))
  | c_float => PyFloat (as_double (float_of_bits 23 8 (int_from_bytes_le bs)))
  | c_double => PyFloat (as_double (float_of_bits 52 11 (int_from_bytes_le bs)))
  | Array c_char _ => PyBytes (until_nul bs)
  | Array _ _ | Packet _ _ | PacketUnion _ _ => PyCData (CData t bs)
  end.

(** A field descriptor bound on a class when [_fields_] is processed. *)
Record CField : Type := MkCField { offset : nat; ftype : ctype }.

Fixpoint struct_fields (fs : list (string * ctype)) (off : nat)
  : list (string * CField) :=
  match fs with
  | [] => []
  | (name, t) :: rest =>
      (name, MkCField off t) :: struct_fields rest (off + sizeof t)
  end.

Definition union_fields (fs : list (string * ctype)) : list (string * CField) :=
  map (fun '(name, t) => (name, MkCField 0 t)) fs.

Definition _fields_ (c : ctype) : list (string * ctype) :=
  match c with
  | Packet _ fs | PacketUnion _ fs => fs
  | _ => []
  end.

(** The descriptors in binding order: structure members at cumulative
    offsets, union members all at offset 0. *)
Definition descriptors (c : ctype) : list (string * CField) :=
  match c with
  | Packet _ fs => struct_fields fs 0
  | PacketUnion _ fs => union_fields fs
  | _ => []
  end.

(** The field descriptor a name is bound to on the class.  Each entry of
    [_fields_] is bound with [setattr] in order, so a later entry of the
    same name replaces an earlier one. *)
Fixpoint class_attr (name : string) (ds : list (string * CField)) : option CField :=
  match ds with
  | [] => None
  | (n, d) :: rest =>
      match class_attr name rest with
      | Some d' => Some d'
      | None => if String.eqb n name then Some d else None
      end
  end.

(** The attributes left on the class once all of [_fields_] is bound:
    an entry shadowed by a later one of the same name is gone. *)
Fixpoint bound_attrs (ds : list (string * CField)) : list (string * CField) :=
  match ds with
  | [] => []
  | (n, d) :: rest =>
      if existsb (fun e => String.eqb e.1 n) rest
      then bound_attrs rest
      else (n, d) :: bound_attrs rest
  end.

Definition slice (off len : nat) (bs : list byte) : list byte :=
  take len (drop off bs).

(** [getattr(self, field)] for the names the code passes: [get_value] is
    called with the names of [_fields_], the listener reads three header
    fields.  Such a name resolves to its descriptor, whose getter reads
    the bytes of the field.  What else a class carries ([_pack_],
    [_fields_] itself, the methods of the mixin and of ctypes) has no
    descriptor here, so the properties below speak of field names only. *)
Definition getattr (self : cdata) (field : string) : result pyvalue :=
  match class_attr field (descriptors (cls self)) with
  | Some d => Ok (getfunc (ftype d) (slice (offset d) (sizeof (ftype d)) (raw self)))
  | None => Raise (AttributeError field)
  end.

(** Iterating a ctypes array yields its elements through the getter. *)
Definition array_items (self : cdata) : list pyvalue :=
  match cls self with
  | Array elt n =>
      map (fun i => getfunc elt (slice (i * sizeof elt) (sizeof elt) (raw self)))
          (seq 0 n)
  | _ => []
  end.

(** [cls.from_buffer_copy(buffer)]: a buffer shorter than the class
    raises [ValueError]; otherwise the first [sizeof cls] bytes are copied
    and whatever follows them is left behind. *)
Definition from_buffer_copy (c : ctype) (buffer : list byte) : result cdata :=
  if (length buffer <? sizeof c)%nat
  then Raise (ValueError (length buffer) (sizeof c))
  else Ok (CData c (take (sizeof c) buffer)).

(** [cls()]: a zero-initialised instance. *)
Definition new (c : ctype) : cdata := CData c (repeat x00 (sizeof c)).

(** ** PacketMixin *)

(** [bytes(self)] *)
Definition pack (self : cdata) : list byte := raw self.

Definition size (c : ctype) : nat := sizeof c.

Definition unpack (c : ctype) (buffer : list byte) : result cdata :=
  from_buffer_copy c buffer.

(** ** Builtins used by the canonicalisation *)

(** Nearest integer to [num / den] ([den > 0]), ties to the even one. *)
Definition round_half_even (num den : Z) : Z :=
  let q := num / den in
  match 2 * (num mod den) ?= den with
  | Lt => q
  | Gt => q + 1
  | Eq => if Z.even q then q else q + 1
  end.

(** The integer [n] such that [n / 10^ndigits] is the exact value of the
    finite float [m * 2^e] correctly rounded at [ndigits] decimal places
    (what [_Py_dg_dtoa] in mode 3 produces). *)
Definition decimal_digits (m : positive) (e : Z) (ndigits : Z) : Z :=
  round_half_even (Zpos m * 2 ^ Z.max e 0 * 10 ^ ndigits) (2 ^ Z.max (- e) 0).

(** The binary64 nearest to the decimal [± n / 10^ndigits] (what
    [_Py_dg_strtod] returns, and what a float literal denotes). *)
Definition decimal_float (s : bool) (n : Z) (ndigits : Z) : spec_float :=
  match n with
  | Zpos k =>
      SFdiv 53 1024 (S754_finite s k 0)
                    (S754_finite false (Z.to_pos (10 ^ ndigits)) 0)
  | _ => S754_zero s
  end.

(** [round(x, ndigits)] on a float, for the small non-negative [ndigits]
    used here: NaN and the infinities round to themselves; a finite value
    is printed correctly rounded and read back. *)
Definition round (x : spec_float) (ndigits : Z) : spec_float :=
  match x with
  | S754_finite s m e => decimal_float s (decimal_digits m e ndigits) ndigits
  | _ => x
  end.

Definition continuation (c : Z) : bool := (0x80 <=? c) && (c <=? 0xBF).

(** [bytes.decode()]: strict UTF-8.  Overlong forms, surrogates, code
    points above U+10FFFF and truncated sequences raise
    [UnicodeDecodeError] at the offending position. *)
Fixpoint utf8_decode (pos : nat) (bs : list byte) : result (list Z) :=
  match bs with
  | [] => Ok []
  | b0 :: r0 =>
      let c0 := byte_val b0 in
      if c0 <? 0x80 then
        s ← utf8_decode (S pos) r0; Ok (c0 :: s)
      else if (0xC2 <=? c0) && (c0 <=? 0xDF) then
        match r0 with
        | b1 :: r1 =>
            let c1 := byte_val b1 in
            if continuation c1 then
              s ← utf8_decode (2 + pos) r1;
              Ok (((c0 - 0xC0) * 64 + (c1 - 0x80)) :: s)
            else Raise (UnicodeDecodeError pos)
        | _ => Raise (UnicodeDecodeError pos)
        end
      else if (0xE0 <=? c0) && (c0 <=? 0xEF) then
        match r0 with
        | b1 :: b2 :: r2 =>
            let c1 := byte_val b1 in
            let c2 := byte_val b2 in
            if continuation c1 && continuation c2
               && negb ((c0 =? 0xE0) && (c1 <? 0xA0))
               && negb ((c0 =? 0xED) && (0xA0 <=? c1)) then
              s ← utf8_decode (3 + pos) r2;
              Ok (((c0 - 0xE0) * 4096 + (c1 - 0x80) * 64 + (c2 - 0x80)) :: s)
            else Raise (UnicodeDecodeError pos)
        | _ => Raise (UnicodeDecodeError pos)
        end
      else if (0xF0 <=? c0) && (c0 <=? 0xF4) then
        match r0 with
        | b1 :: b2 :: b3 :: r3 =>
            let c1 := byte_val b1 in
            let c2 := byte_val b2 in
            let c3 := byte_val b3 in
            if continuation c1 && continuation c2 && continuation c3
               && negb ((c0 =? 0xF0) && (c1 <? 0x90))
               && negb ((c0 =? 0xF4) && (0x90 <=? c1)) then
              s ← utf8_decode (4 + pos) r3;
              Ok (((c0 - 0xF0) * 262144 + (c1 - 0x80) * 4096
                   + (c2 - 0x80) * 64 + (c3 - 0x80)) :: s)
            else Raise (UnicodeDecodeError pos)
        | _ => Raise (UnicodeDecodeError pos)
        end
      else Raise (UnicodeDecodeError pos)
  end.

Definition decode (value : list byte) : result (list Z) := utf8_decode 0 value.

(** [d[k] = v] on an insertion-ordered dict: an existing key keeps its
    place and takes the new value, a new key goes last. *)
Fixpoint dict_set (k : string) (v : pyvalue) (d : list (string * pyvalue))
  : list (string * pyvalue) :=
  match d with
  | [] => [(k, v)]
  | (k', v') :: rest =>
      if String.eqb k' k then (k, v) :: rest else (k', v') :: dict_set k v rest
  end.

Fixpoint dict_get (k : string) (d : list (string * pyvalue)) : option pyvalue :=
  match d with
  | [] => None
  | (k', v) :: rest => if String.eqb k' k then Some v else dict_get k rest
  end.

Definition dict_keys (d : list (string * pyvalue)) : list string := map fst d.

(** The comprehension [{k: f(k) for k in keys}], evaluated left to right;
    the first exception raised by [f] aborts it. *)
Fixpoint dict_comprehension (f : string -> result pyvalue) (keys : list string)
    (d : list (string * pyvalue)) : result (list (string * pyvalue)) :=
  match keys with
  | [] => Ok d
  | k :: rest => v ← f k; dict_comprehension f rest (dict_set k v d)
  end.

(** The loop [for item in items: results.append(f(item))]. *)
Fixpoint list_collect (f : pyvalue -> result pyvalue) (items : list pyvalue)
  : result (list pyvalue) :=
  match items with
  | [] => Ok []
  | item :: rest => v ← f item; vs ← list_collect f rest; Ok (v :: vs)
  end.

(** ** PacketMixin: canonicalisation *)

Definition is_packet (c : ctype) : bool :=
  match c with Packet _ _ => true | _ => false end.

Definition has_to_dict (c : ctype) : bool :=
  match c with Packet _ _ | PacketUnion _ _ => true | _ => false end.

Definition is_array (c : ctype) : bool :=
  match c with Array _ _ => true | _ => false end.

Section Canonicalisation.
(** [to_dict], [_format_type] and [_format_array_type] call each other;
    their bodies are written against the [to_dict] of nested instances
    and the knot is tied below. *)
Variable to_dict_nested : cdata -> result pyvalue.

Definition _format_array_type (value : cdata) : result pyvalue :=
  results ← list_collect
    (fun item =>
       match item with
       | PyCData c => if is_packet (cls c) then to_dict_nested c else Ok item
       | _ => Ok item
       end)
    (array_items value);
  Ok (PyList results).

Definition _format_type (value : pyvalue) : result pyvalue :=
  match value with
  | PyFloat x => Ok (PyFloat (round x 3))
  | PyBytes b => s ← decode b; Ok (PyStr s)
  | PyCData c =>
      if is_array (cls c) then _format_array_type c
      else if has_to_dict (cls c) then to_dict_nested c
      else Ok value
  | _ => Ok value
  end.

Definition get_value (self : cdata) (field : string) : result pyvalue :=
  value ← getattr self field; _format_type value.

Definition to_dict_body (self : cdata) : result pyvalue :=
  d ← dict_comprehension (get_value self) (map fst (_fields_ (cls self))) [];
  Ok (PyDict d).
End Canonicalisation.

(** Nesting depth of structures and unions in a layout. *)
Fixpoint nesting (t : ctype) : nat :=
  match t with
  | Array elt _ => nesting elt
  | Packet _ fs | PacketUnion _ fs =>
      S ((fix deepest (fs : list (string * ctype)) : nat :=
            match fs with
            | [] => 0
            | (_, ft) :: rest => Nat.max (nesting ft) (deepest rest)
            end) fs)
  | _ => 0
  end%nat.

Fixpoint to_dict_depth (depth : nat) (self : cdata) : result pyvalue :=
  match depth with
  | O => Raise RecursionError
  | S depth' => to_dict_body (to_dict_depth depth') self
  end.

(** [self.to_dict()]: the recursion follows the nesting of the layout,
    which bounds its depth. *)
Definition to_dict (self : cdata) : result pyvalue :=
  if has_to_dict (cls self)
  then to_dict_depth (nesting (cls self)) self
  else Raise (AttributeError "to_dict").

(** The instances handed to the nested [to_dict] while canonicalising
    [self]: structures and unions strictly less nested than [self]. *)
Definition nested_in (self c : cdata) : Prop :=
  has_to_dict (cls c) = true /\ (nesting (cls c) < nesting (cls self))%nat.

(** ** The listener *)

Definition int_of (v : pyvalue) : Z :=
  match v with PyInt n => n | _ => 0 end.

(** The tuple [(header.packet_format, header.packet_version, header.packet_id)]. *)
Definition key_of (header : cdata) : result (Z * Z * Z) :=
  packet_format ← getattr header "packet_format";
  packet_version ← getattr header "packet_version";
  packet_id ← getattr header "packet_id";
  Ok (int_of packet_format, int_of packet_version, int_of packet_id).

(** [TelemetryListener.get], as a function of the datagram that
    [socket.recv(2048)] returns (at most its first 2048 bytes). *)
Definition get (datagram : list byte) : result cdata :=
  let packet := take 2048 datagram in
  header ← from_buffer_copy PacketHeader packet;
  key ← key_of header;
  match HEADER_FIELD_TO_PACKET_TYPE !! key with
  | Some packet_type => unpack packet_type packet
  | None => Raise (KeyError key)
  end.

(** The 14 keys of the dispatch table. *)
Definition registered_key (key : Z * Z * Z) : Prop :=
  exists k, 0 <= k <= 13 /\ key = (2023, 1, k).

(** ** Wire-side helpers and sample buffers *)

Definition byte_of_Z (z : Z) : byte :=
  default x00 (Byte.of_N (Z.to_N (z mod 256))).

Definition bytes_of (l : list Z) : list byte := map byte_of_Z l.

(** [z.to_bytes(n, "little")] on the two's complement of [z]. *)
Fixpoint int_to_bytes_le (n : nat) (z : Z) : list byte :=
  match n with
  | O => []
  | S n' => byte_of_Z z :: int_to_bytes_le n' (z / 256)
  end.

Definition ascii_codes (s : string) : list Z :=
  map (fun a => Z.of_N (Ascii.N_of_ascii a)) (list_ascii_of_string s).

(** The event codes listed in the docstring of [PacketEventData]. *)
Definition EVENT_CODES : list string :=
  [ "SSTA"; "SEND"; "FTLP"; "RTMT"; "DRSE"; "DRSD"; "TMPT"; "CHQF"; "RCWN";
    "PENA"; "SPTP"; "STLG"; "LGOT"; "DTSV"; "SGSV"; "FLBK"; "BUTN"; "RDFL";
    "OVTK" ].

(** A header with the given dispatch key and every other field zero. *)
Definition sample_header (packet_format packet_version packet_id : Z) : list byte :=
  int_to_bytes_le 2 packet_format
  ++ bytes_of [23; 1; 0; packet_version; packet_id]
  ++ bytes_of (repeat 0 22).

(** An event datagram: header, code, and the 12 payload bytes. *)
Definition sample_event (code : string) (payload : list Z) : list byte :=
  sample_header 2023 1 3 ++ bytes_of (ascii_codes code) ++ bytes_of payload.

(** 123.456789 as a little-endian binary32: e0 e9 f6 42. *)
Definition f32_123_456789 : list Z := [0xe0; 0xe9; 0xf6; 0x42].

(** "FTLP": vehicle 7, lap time 123.456789, then the unused union tail. *)
Definition ftlp_event : list byte :=
  sample_event "FTLP" ([7] ++ f32_123_456789 ++ repeat 0 7).

Definition unknown_code_event : list byte :=
  sample_event "ZZZZ" (repeat 0 12).

(** The "FTLP" datagram followed by one stray byte. *)
Definition overlong_event : list byte := ftlp_event ++ [x2a].

(** A 2022-format header followed by a motion-sized body. *)
Definition unregistered_datagram : list byte :=
  sample_header 2022 1 0 ++ bytes_of (repeat 0 1320).

Definition fastest_lap_sample : cdata :=
  CData FastestLap (bytes_of ([7] ++ f32_123_456789)).

(** A participant whose 48-byte name buffer is [name_bytes], NUL padded. *)
Definition participant_sample (name_bytes : list Z) : cdata :=
  CData ParticipantData
    (bytes_of ([1; 9; 0; 2; 0; 33; 22]
               ++ take 48 (name_bytes ++ repeat 0 48)
               ++ [1; 1; 1])).

Definition lap_history_sample : list byte :=
  bytes_of [1; 2; 3; 4; 5; 6; 7; 8; 9; 10; 11; 12; 13; 14].

(** A tyre set whose lap delta was written as the int16 -100. *)
Definition tyre_set_sample : list byte :=
  bytes_of [16; 16; 3; 1; 10; 20; 24] ++ int_to_bytes_le 2 (-100) ++ bytes_of [0].

(** [value[key]] on a canonical dict. *)
Definition item (key : string) (value : pyvalue) : option pyvalue :=
  match value with
  | PyDict entries => dict_get key entries
  | _ => None
  end.

(** The records of a layout: fresh ones, decoded ones, and the ones
    reached from a record through an attribute or as an array element. *)
Inductive instance_of : ctype -> cdata -> Prop :=
  | instance_new (L : ctype) : instance_of L (new L)
  | instance_unpacked (L : ctype) (buffer : list byte) (r : cdata) :
      unpack L buffer = Ok r -> instance_of L r
  | instance_attribute (L : ctype) (r : cdata) (field : string) (c : cdata) :
      instance_of L r -> getattr r field = Ok (PyCData c) ->
      instance_of (cls c) c
  | instance_item (L : ctype) (a c : cdata) :
      instance_of L a -> PyCData c ∈ array_items a ->
      instance_of (cls c) c.

(** ** Vocabulary for the properties of the layouts *)

(** No [c_char] anywhere in the layout. *)
Fixpoint text_free (t : ctype) : bool :=
  match t with
  | c_char => false
  | Array elt _ => text_free elt
  | Packet _ fs | PacketUnion _ fs =>
      (fix all (fs : list (string * ctype)) : bool :=
         match fs with
         | [] => true
         | (_, ft) :: rest => text_free ft && all rest
         end) fs
  | _ => true
  end.

(** The values of the C integer types. *)
Definition int_range (t : ctype) : option (Z * Z) :=
  match t with
  | c_int8 => Some (-128, 127)
  | c_uint8 => Some (0, 255)
  | c_int16 => Some (-32768, 32767)
  | c_uint16 => Some (0, 65535)
  | c_uint32 => Some (0, 4294967295)
  | c_uint64 => Some (0, 18446744073709551615)
  | _ => None
  end.

Definition ascii_byte (b : byte) : Prop := byte_val b < 128.

(** The bytes of the members of a class, in the order of [_fields_]. *)
Definition member_bytes (c : ctype) (bs : list byte) : list (list byte) :=
  map (fun nd => slice (offset nd.2) (sizeof (ftype nd.2)) bs) (descriptors c).

(** The [i]-th element of the array member described by [d]. *)
Definition element (self : cdata) (d : CField) (elt : ctype) (i : nat) : cdata :=
  CData elt (slice (i * sizeof elt) (sizeof elt)
                   (slice (offset d) (sizeof (ftype d)) (raw self))).

(** The instance held by the structure or union member described by [d]. *)
Definition member (self : cdata) (d : CField) : cdata :=
  CData (ftype d) (slice (offset d) (sizeof (ftype d)) (raw self)).

(** The dispatch key as it sits in a datagram: bytes 0-1 (signed,
    little-endian), byte 5 and byte 6. *)
Definition datagram_key (datagram : list byte) : Z * Z * Z :=
  (to_signed 16 (int_from_bytes_le (slice 0 2 datagram)),
   int_from_bytes_le (slice 5 1 datagram),
   int_from_bytes_le (slice 6 1 datagram)).

(** A 33-byte event datagram: header and code, no payload. *)
Definition bare_event : list byte :=
  sample_header 2023 1 3 ++ bytes_of (ascii_codes "SSTA").

(** A participants datagram: 21 participants named "Max" and a last
    one whose name buffer starts with [last_name]. *)
Definition participants_datagram (last_name : list Z) : list byte :=
  sample_header 2023 1 4 ++ bytes_of [22]
  ++ concat (repeat (raw (participant_sample (ascii_codes "Max"))) 21)
  ++ raw (participant_sample last_name).

(** The Unicode scalar values: code points that are no surrogates. *)
Definition scalar_value (c : Z) : Prop :=
  0 <= c <= 0x10FFFF /\ ~ (0xD800 <= c <= 0xDFFF).

(** UTF-8 as RFC 3629 defines it (and [str.encode()] produces it): one
    to four bytes for a code point, by its range.  [utf8_decode] is
    compared with it. *)
Definition utf8_encode_char (c : Z) : list byte :=
  if c <? 0x80 then [byte_of_Z c]
  else if c <? 0x800 then
    [byte_of_Z (0xC0 + c / 64); byte_of_Z (0x80 + c mod 64)]
  else if c <? 0x10000 then
    [byte_of_Z (0xE0 + c / 4096); byte_of_Z (0x80 + (c / 64) mod 64);
     byte_of_Z (0x80 + c mod 64)]
  else
    [byte_of_Z (0xF0 + c / 262144); byte_of_Z (0x80 + (c / 4096) mod 64);
     byte_of_Z (0x80 + (c / 64) mod 64); byte_of_Z (0x80 + c mod 64)].

Definition utf8_encode (s : list Z) : list byte := flat_map utf8_encode_char s.

(** Names used as examples: "Pérez…" followed by U+1F3C1, in UTF-8; an
    overlong NUL, a surrogate, and a sequence cut short. *)
Definition multibyte_name : list Z :=
  [80; 0xC3; 0xA9; 114; 101; 122; 0xE2; 0x80; 0xA6; 0xF0; 0x9F; 0x8F; 0x81].

Definition multibyte_text : list Z := [80; 233; 114; 101; 122; 8230; 127937].

(** What [json.dumps] accepts: numbers, strings, lists and dicts of
    such; neither [bytes] nor ctypes instances. *)
Fixpoint json_ready (v : pyvalue) : bool :=
  match v with
  | PyInt _ | PyFloat _ | PyStr _ => true
  | PyBytes _ | PyCData _ => false
  | PyList items =>
      (fix all (l : list pyvalue) : bool :=
         match l with
         | [] => true
         | x :: rest => json_ready x && all rest
         end) items
  | PyDict entries =>
      (fix all (l : list (string * pyvalue)) : bool :=
         match l with
         | [] => true
         | (_, x) :: rest => json_ready x && all rest
         end) entries
  end.

(** Layouts whose arrays hold numbers, characters or structures (and
    not unions or further arrays), at every depth. *)
Fixpoint plain_arrays (t : ctype) : bool :=
  match t with
  | Array elt _ =>
      match elt with
      | Array _ _ | PacketUnion _ _ => false
      | _ => plain_arrays elt
      end
  | Packet _ fs | PacketUnion _ fs =>
      (fix all (fs : list (string * ctype)) : bool :=
         match fs with
         | [] => true
         | (_, ft) :: rest => plain_arrays ft && all rest
         end) fs
  | _ => true
  end.

(** * Properties *)

(** ** Bytes and buffers *)

Lemma byte_val_range (b : byte) : 0 <= byte_val b <= 255.
Proof.
  unfold byte_val. pose proof (Byte.to_N_bounded b). lia.
Qed.

Lemma byte_val_byte_of_Z (z : Z) : byte_val (byte_of_Z z) = z mod 256.
Proof.
  unfold byte_val, byte_of_Z.
  pose proof (Z.mod_pos_bound z 256 ltac:(lia)) as Hm.
  destruct (Byte.of_N (Z.to_N (z mod 256))) as [b|] eqn:E; simpl.
  - apply Byte.to_of_N in E. rewrite E. lia.
  - apply Byte.of_N_None_iff in E. lia.
Qed.

Lemma byte_val_zero (b : byte) : byte_val b = 0 <-> b = x00.
Proof.
  split; [|by intros ->].
  unfold byte_val. intros H.
  assert (Byte.to_N b = 0%N) as H0 by lia.
  pose proof (Byte.of_to_N b) as Hb. rewrite H0 in Hb.
  vm_compute in Hb. by injection Hb.
Qed.

(** Reading stops at the first NUL; what follows it is ignored. *)
Lemma until_nul_app (pre post : list byte) :
  Forall (fun b => b <> x00) pre -> until_nul (pre ++ x00 :: post)%list = pre.
Proof.
  induction 1 as [|b pre Hb _ IH]; simpl; [done|].
  destruct (Z.eqb_spec (byte_val b) 0) as [Hz|_].
  - by apply byte_val_zero in Hz.
  - by rewrite IH.
Qed.

Lemma until_nul_no_nul (bs : list byte) : Forall (fun b => b <> x00) (until_nul bs).
Proof.
  induction bs as [|b bs IH]; simpl; [constructor|].
  destruct (Z.eqb_spec (byte_val b) 0) as [|Hz]; constructor; [|done].
  intros ->. by apply Hz.
Qed.

Lemma slice_take (off len n : nat) (bs : list byte) :
  (off + len <= n)%nat -> slice off len (take n bs) = slice off len bs.
Proof.
  intros H. unfold slice. rewrite !take_drop_commute, take_take.
  do 2 f_equal. lia.
Qed.

Lemma unpack_inv (L : ctype) (buffer : list byte) (self : cdata) :
  unpack L buffer = Ok self ->
  (sizeof L <= length buffer)%nat /\ self = CData L (take (sizeof L) buffer).
Proof.
  unfold unpack, from_buffer_copy.
  destruct (Nat.ltb_spec (length buffer) (sizeof L)); [discriminate|].
  intros [= <-]. split; [lia|done].
Qed.

(** Case analysis on membership in an explicit list. *)
Ltac elem_of_cases H :=
  repeat (apply elem_of_cons in H as [H|H]); [..|by apply elem_of_nil in H].

(** Splits a buffer known to be long enough into its leading bytes. *)
Ltac uncons_buffer buffer H :=
  repeat (destruct buffer as [|? buffer]; [simpl in H; lia|]).

(** ** Attribute lookup *)

Lemma class_attr_elem (field : string) (ds : list (string * CField)) (d : CField) :
  class_attr field ds = Some d -> (field, d) ∈ ds.
Proof.
  induction ds as [|[n d'] ds IH]; simpl; [discriminate|].
  destruct (class_attr field ds) as [d''|] eqn:E.
  - intros [= <-]. right. by apply IH.
  - destruct (String.eqb_spec n field) as [->|]; [|discriminate].
    intros [= <-]. left.
Qed.

Lemma struct_fields_names (fs : list (string * ctype)) (off : nat) :
  map fst (struct_fields fs off) = map fst fs.
Proof.
  revert off. induction fs as [|[n t] fs IH]; intros off; simpl; [done|].
  by rewrite IH.
Qed.

Lemma descriptors_names (c : ctype) :
  map fst (descriptors c) = map fst (_fields_ c).
Proof.
  destruct c; simpl; try done.
  - apply struct_fields_names.
  - unfold union_fields. rewrite map_map. apply map_ext. by intros [n t].
Qed.

Lemma class_attr_is_Some (field : string) (ds : list (string * CField)) :
  field ∈ map fst ds -> is_Some (class_attr field ds).
Proof.
  induction ds as [|[n d] ds IH]; simpl.
  - intros H. by apply elem_of_nil in H.
  - intros H. destruct (class_attr field ds) as [d'|] eqn:E; [eauto|].
    apply elem_of_cons in H as [->|H].
    + rewrite String.eqb_refl. eauto.
    + apply IH in H as [? ?]. discriminate.
Qed.

Lemma class_attr_bound (field : string) (ds : list (string * CField)) (d : CField) :
  class_attr field ds = Some d -> (field, d) ∈ bound_attrs ds.
Proof.
  induction ds as [|[n d'] ds IH]; simpl; [discriminate|].
  destruct (class_attr field ds) as [d''|] eqn:E.
  - intros [= <-]. destruct (existsb _ ds); [|right]; by apply IH.
  - destruct (String.eqb_spec n field) as [->|]; [|discriminate].
    intros [= <-].
    destruct (existsb (fun e => String.eqb e.1 field) ds) eqn:Ex; [|left].
    apply existsb_exists in Ex as [[n' d''] [Hin Hn]].
    apply String.eqb_eq in Hn. simpl in Hn. subst n'.
    assert (is_Some (class_attr field ds)) as [? ?]; [|congruence].
    apply class_attr_is_Some. apply list_elem_of_In in Hin.
    by apply (list_elem_of_fmap_2 fst) in Hin.
Qed.

Lemma class_attr_field_name (c : ctype) (field : string) (d : CField) :
  class_attr field (descriptors c) = Some d -> field ∈ map fst (_fields_ c).
Proof.
  intros H. rewrite <- descriptors_names.
  apply class_attr_elem in H. by apply (list_elem_of_fmap_2 fst) in H.
Qed.

Lemma class_attr_has_to_dict (c : ctype) (field : string) (d : CField) :
  class_attr field (descriptors c) = Some d -> has_to_dict c = true.
Proof. by destruct c. Qed.

Lemma descriptors_field (c : ctype) (k : string) (d : CField) :
  (k, d) ∈ descriptors c -> (k, ftype d) ∈ _fields_ c.
Proof.
  destruct c as [| | | | | | | | | |name fs|name fs]; simpl;
    try (intros H; by apply elem_of_nil in H).
  - generalize 0%nat. induction fs as [|[k' t'] fs IH]; intros off; simpl.
    + intros H. by apply elem_of_nil in H.
    + intros [[= -> ->]|H]%elem_of_cons; [left|right; eauto].
  - unfold union_fields. intros H. apply list_elem_of_fmap_1 in H as [[k' t'] [[= -> ->] H]].
    done.
Qed.

Lemma nesting_fields (c : ctype) (k : string) (t : ctype) :
  (k, t) ∈ _fields_ c -> (nesting t < nesting c)%nat.
Proof.
  assert (forall fs : list (string * ctype), (k, t) ∈ fs ->
            (nesting t <=
             (fix deepest (fs : list (string * ctype)) : nat :=
                match fs with
                | [] => 0
                | (_, ft) :: rest => Nat.max (nesting ft) (deepest rest)
                end) fs)%nat) as Hfs.
  { induction fs as [|[k' t'] fs IH]; intros Hin.
    - by apply elem_of_nil in Hin.
    - apply elem_of_cons in Hin as [[= <- <-]|Hin]; [lia|].
      specialize (IH Hin). lia. }
  destruct c; simpl; intros Hin; try (by apply elem_of_nil in Hin);
    apply Hfs in Hin; lia.
Qed.

Lemma getfunc_cdata_eq (t : ctype) (bs : list byte) (c : cdata) :
  getfunc t bs = PyCData c -> c = CData t bs.
Proof.
  destruct t; simpl; try discriminate; try (by intros [= <-]).
  destruct t; simpl; try discriminate; by intros [= <-].
Qed.

Lemma getfunc_cdata (t : ctype) (bs : list byte) (c : cdata) :
  getfunc t bs = PyCData c -> cls c = t.
Proof. intros H. apply getfunc_cdata_eq in H. by subst c. Qed.

(** Every descriptor lies within its class. *)
Lemma struct_fields_fit name (fs : list (string * ctype)) (off : nat) k d :
  (k, d) ∈ struct_fields fs off ->
  (off <= offset d /\ offset d + sizeof (ftype d) <= off + sizeof (Packet name fs))%nat.
Proof.
  revert off. induction fs as [|[k' t'] fs IH]; intros off.
  - intros H. by apply elem_of_nil in H.
  - change (sizeof (Packet name ((k', t') :: fs)))
      with (sizeof t' + sizeof (Packet name fs))%nat.
    cbn [struct_fields]. intros [[= -> ->]|H]%elem_of_cons.
    + cbn [offset ftype]. lia.
    + apply IH in H. lia.
Qed.

Lemma union_fields_fit name (fs : list (string * ctype)) k d :
  (k, d) ∈ union_fields fs ->
  (offset d = 0 /\ sizeof (ftype d) <= sizeof (PacketUnion name fs))%nat.
Proof.
  induction fs as [|[k' t'] fs IH].
  - intros H. by apply elem_of_nil in H.
  - change (sizeof (PacketUnion name ((k', t') :: fs)))
      with (Nat.max (sizeof t') (sizeof (PacketUnion name fs))).
    cbn [union_fields map]. intros [[= -> ->]|H]%elem_of_cons.
    + cbn [offset ftype]. lia.
    + apply IH in H. lia.
Qed.

Lemma descriptors_fit (c : ctype) (k : string) (d : CField) :
  (k, d) ∈ descriptors c -> (offset d + sizeof (ftype d) <= sizeof c)%nat.
Proof.
  destruct c as [| | | | | | | | | |name fs|name fs]; cbn [descriptors];
    try (intros H; by apply elem_of_nil in H).
  - intros H. apply (struct_fields_fit name) in H. lia.
  - intros H. apply (union_fields_fit name) in H. lia.
Qed.

Lemma length_slice (off len : nat) (bs : list byte) :
  (off + len <= length bs)%nat -> length (slice off len bs) = len.
Proof.
  intros H. unfold slice. rewrite length_take, length_drop. lia.
Qed.

Lemma array_items_cdata (a c : cdata) :
  PyCData c ∈ array_items a -> nesting (cls c) = nesting (cls a).
Proof.
  unfold array_items. destruct (cls a) eqn:E; try (intros H; by apply elem_of_nil in H).
  intros H. apply list_elem_of_fmap_1 in H as (i & Hi & _).
  symmetry in Hi. apply getfunc_cdata in Hi. by rewrite Hi.
Qed.

Lemma getattr_float (self : cdata) (field : string) (d : CField) :
  class_attr field (descriptors (cls self)) = Some d ->
  ftype d = c_float \/ ftype d = c_double ->
  exists x, getattr self field = Ok (PyFloat x).
Proof.
  intros Hd Ht. unfold getattr. rewrite Hd.
  destruct Ht as [-> | ->]; simpl; eauto.
Qed.

(** ** Comprehensions and loops *)

Lemma dict_get_set_eq k v d : dict_get k (dict_set k v d) = Some v.
Proof.
  induction d as [|[k' v'] d IH]; simpl.
  - by rewrite String.eqb_refl.
  - destruct (String.eqb_spec k' k) as [->|Hne]; simpl.
    + by rewrite String.eqb_refl.
    + by destruct (String.eqb_spec k' k).
Qed.

Lemma dict_get_set_ne k k' v d : k <> k' -> dict_get k (dict_set k' v d) = dict_get k d.
Proof.
  intros Hne. induction d as [|[k'' v''] d IH]; simpl.
  - by destruct (String.eqb_spec k' k) as [->|].
  - destruct (String.eqb_spec k'' k') as [->|]; simpl.
    + destruct (String.eqb_spec k' k) as [->|]; done.
    + destruct (String.eqb_spec k'' k); done.
Qed.

Lemma dict_comprehension_keeps f keys d0 d k v :
  dict_comprehension f keys d0 = Ok d ->
  f k = Ok v -> dict_get k d0 = Some v -> dict_get k d = Some v.
Proof.
  revert d0. induction keys as [|k' keys IH]; intros d0; simpl.
  - by intros [= <-].
  - destruct (f k') as [v'|] eqn:Hf; simpl; [|discriminate].
    intros Hc Hk Hd. apply (IH _ Hc Hk).
    destruct (decide (k = k')) as [<-|Hne].
    + rewrite dict_get_set_eq. congruence.
    + by rewrite dict_get_set_ne.
Qed.

(** A comprehension that succeeds maps every key to the value computed
    for it. *)
Lemma dict_comprehension_lookup f keys d0 d k :
  dict_comprehension f keys d0 = Ok d -> k ∈ keys ->
  exists v, f k = Ok v /\ dict_get k d = Some v.
Proof.
  revert d0. induction keys as [|k' keys IH]; intros d0; simpl.
  - intros _ H. by apply elem_of_nil in H.
  - destruct (f k') as [v'|] eqn:Hf; simpl; [|discriminate].
    intros Hc [->|Hin]%elem_of_cons.
    + exists v'. split; [done|].
      apply (dict_comprehension_keeps _ _ _ _ _ _ Hc Hf), dict_get_set_eq.
    + eauto.
Qed.

(** An exception raised for one of the keys aborts the comprehension. *)
Lemma dict_comprehension_raises f keys d0 k e :
  k ∈ keys -> f k = Raise e -> exists e', dict_comprehension f keys d0 = Raise e'.
Proof.
  revert d0. induction keys as [|k' keys IH]; intros d0; simpl.
  - intros H. by apply elem_of_nil in H.
  - intros [->|Hin]%elem_of_cons Hf.
    + rewrite Hf. simpl. eauto.
    + destruct (f k') as [v'|]; simpl; eauto.
Qed.

Lemma dict_comprehension_raise_inv f keys d0 e :
  dict_comprehension f keys d0 = Raise e -> exists k, k ∈ keys /\ f k = Raise e.
Proof.
  revert d0. induction keys as [|k keys IH]; intros d0; simpl; [discriminate|].
  destruct (f k) as [v|e'] eqn:Hf; simpl.
  - intros H. apply IH in H as (k' & Hin & Hk'). exists k'. split; [by right|done].
  - intros [= <-]. exists k. split; [left|done].
Qed.

Lemma dict_comprehension_ext f g keys d0 :
  (forall k, k ∈ keys -> f k = g k) ->
  dict_comprehension f keys d0 = dict_comprehension g keys d0.
Proof.
  revert d0. induction keys as [|k keys IH]; intros d0 H; simpl; [done|].
  rewrite <- (H k) by left. destruct (f k); simpl; [|done].
  apply IH. intros k' Hk'. apply H. by right.
Qed.

Lemma list_collect_ext f g items :
  (forall v, v ∈ items -> f v = g v) -> list_collect f items = list_collect g items.
Proof.
  induction items as [|v items IH]; intros H; simpl; [done|].
  rewrite <- (H v) by left. destruct (f v); simpl; [|done].
  rewrite IH; [done|]. intros v' Hv'. apply H. by right.
Qed.

Lemma list_collect_raise_inv f items e :
  list_collect f items = Raise e -> exists v, v ∈ items /\ f v = Raise e.
Proof.
  induction items as [|v items IH]; simpl; [discriminate|].
  destruct (f v) as [v'|e'] eqn:Hf; simpl.
  - destruct (list_collect f items) as [vs|e''] eqn:Hc; simpl; [discriminate|].
    intros [= <-]. destruct (IH eq_refl) as (v'' & Hin & Hv'').
    exists v''. split; [by right|done].
  - intros [= <-]. exists v. split; [left|done].
Qed.

(** ** The recursion of [to_dict] is well defined *)

Lemma to_dict_body_ext (f g : cdata -> result pyvalue) (self : cdata) :
  (forall c, nested_in self c -> f c = g c) ->
  to_dict_body f self = to_dict_body g self.
Proof.
  intros Hfg. unfold to_dict_body.
  rewrite (dict_comprehension_ext (get_value f self) (get_value g self)); [done|].
  intros k _. unfold get_value, getattr.
  destruct (class_attr k (descriptors (cls self))) as [d|] eqn:Hd; [|done].
  simpl. apply class_attr_elem, descriptors_field, nesting_fields in Hd.
  destruct (getfunc _ _) as [| | | | | |c] eqn:Hv; try done.
  apply getfunc_cdata in Hv. simpl.
  destruct (is_array (cls c)) eqn:Ha.
  - unfold _format_array_type. erewrite list_collect_ext; [done|].
    intros [| | | | | |c'] Hin; try done.
    destruct (is_packet (cls c')) eqn:Hp; [|done].
    apply Hfg. apply array_items_cdata in Hin. split.
    + by destruct (cls c').
    + rewrite Hin, Hv. done.
  - destruct (has_to_dict (cls c)) eqn:Ht; [|done].
    apply Hfg. split; [done|]. by rewrite Hv.
Qed.

Lemma to_dict_depth_enough (n : nat) (self : cdata) :
  has_to_dict (cls self) = true ->
  (nesting (cls self) <= n)%nat ->
  to_dict_depth n self = to_dict self.
Proof.
  revert self. induction (lt_wf n) as [n _ IH]. intros self Hs Hn.
  unfold to_dict. rewrite Hs.
  destruct n as [|n]; [destruct (cls self); simpl in *; (discriminate || lia)|].
  destruct (nesting (cls self)) as [|k] eqn:Hk;
    [destruct (cls self); simpl in *; (discriminate || lia)|].
  simpl. apply to_dict_body_ext. intros c [Hc Hlt]. rewrite Hk in Hlt.
  rewrite (IH n), (IH k); try done; lia.
Qed.

(** [to_dict] satisfies the recursive equation of the source: the
    comprehension over [get_value], with [to_dict] itself on whatever is
    nested. *)
Lemma to_dict_eq (self : cdata) :
  has_to_dict (cls self) = true ->
  to_dict self = to_dict_body to_dict self.
Proof.
  intros Hs. unfold to_dict at 1. rewrite Hs.
  destruct (nesting (cls self)) as [|k] eqn:Hk;
    [destruct (cls self); simpl in *; (discriminate || lia)|].
  simpl. apply to_dict_body_ext. intros c [Hc Hlt]. rewrite Hk in Hlt.
  apply to_dict_depth_enough; [done|lia].
Qed.

Lemma utf8_decode_raises (bs : list byte) (pos : nat) (e : exn) :
  utf8_decode pos bs = Raise e -> exists p, e = UnicodeDecodeError p.
Proof.
  remember (length bs) as n eqn:Hn. revert bs pos Hn.
  induction (lt_wf n) as [n _ IH]. intros bs pos -> H.
  destruct bs as [|b0 r0]; [discriminate|]. cbn [utf8_decode] in H.
  repeat match type of H with
         | (if ?c then _ else _) = _ => destruct c
         | match ?l with [] => _ | _ :: _ => _ end = _ => destruct l
         | Raise _ = Raise _ => injection H as <-; by eexists
         | (utf8_decode ?p ?l ≫= _) = _ =>
             destruct (utf8_decode p l) eqn:E;
             [discriminate|injection H as <-;
                           eapply (IH (length l)); [simpl; lia|reflexivity|exact E]]
         end.
Qed.

(** [to_dict] can only fail on text: whatever it raises is the
    [UnicodeDecodeError] of some character buffer. *)
Lemma to_dict_raise_inv (self : cdata) (e : exn) :
  has_to_dict (cls self) = true ->
  to_dict self = Raise e -> exists p, e = UnicodeDecodeError p.
Proof.
  remember (nesting (cls self)) as n eqn:Hn. revert self Hn.
  induction (lt_wf n) as [n _ IH]. intros self -> Hs H.
  rewrite to_dict_eq in H by done. unfold to_dict_body in H.
  destruct (dict_comprehension _ _ _) as [d|e'] eqn:Hc; [discriminate|].
  injection H as ->. apply dict_comprehension_raise_inv in Hc as (k & Hin & Hk).
  rewrite <- descriptors_names in Hin.
  apply class_attr_is_Some in Hin as [d Hd].
  unfold get_value, getattr in Hk. rewrite Hd in Hk. simpl in Hk.
  apply class_attr_elem, descriptors_field, nesting_fields in Hd.
  destruct (getfunc _ _) as [| |b| | | |c] eqn:Hv; try discriminate.
  - simpl in Hk. destruct (decode b) as [s|e'] eqn:Hb; [discriminate|].
    injection Hk as <-. by eapply utf8_decode_raises.
  - apply getfunc_cdata in Hv. simpl in Hk.
    destruct (is_array (cls c)) eqn:Ha.
    + unfold _format_array_type in Hk.
      destruct (list_collect _ _) as [vs|e'] eqn:Hl; [discriminate|].
      injection Hk as <-. apply list_collect_raise_inv in Hl as (v & Hv' & Hf).
      destruct v as [| | | | | |c']; try discriminate.
      destruct (is_packet (cls c')) eqn:Hp; [|discriminate].
      apply array_items_cdata in Hv'.
      eapply (IH (nesting (cls c'))); [|reflexivity| |exact Hf].
      * rewrite Hv', Hv. done.
      * by destruct (cls c').
    + destruct (has_to_dict (cls c)) eqn:Ht; [|discriminate].
      eapply (IH (nesting (cls c))); [|reflexivity|exact Ht|exact Hk].
      by rewrite Hv.
Qed.

(** In the dict [to_dict] returns, a field name maps to its [get_value]. *)
Lemma to_dict_entry (self : cdata) (field : string) (d : CField) entries :
  class_attr field (descriptors (cls self)) = Some d ->
  to_dict self = Ok (PyDict entries) ->
  exists v, get_value to_dict self field = Ok v
            /\ dict_get field entries = Some v.
Proof.
  intros Hd Ht.
  rewrite to_dict_eq in Ht by (by eapply class_attr_has_to_dict).
  unfold to_dict_body in Ht.
  destruct (dict_comprehension _ _ _) as [d'|] eqn:Hc; [|discriminate].
  injection Ht as ->.
  eapply dict_comprehension_lookup in Hc as (v & Hv & Hg);
    [|by eapply class_attr_field_name].
  eauto.
Qed.

(** An exception of [get_value] on a field surfaces from [to_dict]. *)
Lemma to_dict_raises (self : cdata) (field : string) (d : CField) (e : exn) :
  class_attr field (descriptors (cls self)) = Some d ->
  get_value to_dict self field = Raise e ->
  exists p, to_dict self = Raise (UnicodeDecodeError p).
Proof.
  intros Hd Hr.
  assert (has_to_dict (cls self) = true) as Hs by (by eapply class_attr_has_to_dict).
  destruct (to_dict self) as [v|e'] eqn:Ht.
  - exfalso. rewrite to_dict_eq in Ht by done. unfold to_dict_body in Ht.
    edestruct dict_comprehension_raises as [e' He'];
      [by eapply class_attr_field_name|exact Hr|].
    rewrite He' in Ht. discriminate Ht.
  - apply to_dict_raise_inv in Ht as [p ->]; eauto.
Qed.

(** ** The dispatch table *)

Lemma dispatch_lookup_registered key L :
  HEADER_FIELD_TO_PACKET_TYPE !! key = Some L -> registered_key key.
Proof.
  intros H. unfold HEADER_FIELD_TO_PACKET_TYPE in H.
  apply elem_of_list_to_map_2 in H.
  repeat match goal with
         | H : _ ∈ _ :: _ |- _ => apply elem_of_cons in H as [H|H]
         | H : _ ∈ [] |- _ => by apply elem_of_nil in H
         | H : (_, _) = (_, _) |- _ => injection H as -> _
         end;
    eexists; (split; [|reflexivity]); lia.
Qed.

Lemma dispatch_lookup_unregistered key :
  ~ registered_key key -> HEADER_FIELD_TO_PACKET_TYPE !! key = None.
Proof.
  intros Hn. destruct (HEADER_FIELD_TO_PACKET_TYPE !! key) eqn:E; [|done].
  exfalso. eauto using dispatch_lookup_registered.
Qed.

(** Whatever [get] returns was decoded under the layout registered for
    the key found in the header. *)
Lemma get_ok_registered (datagram : list byte) (r : cdata) :
  get datagram = Ok r ->
  exists header key,
    from_buffer_copy PacketHeader (take 2048 datagram) = Ok header
    /\ key_of header = Ok key
    /\ registered_key key
    /\ HEADER_FIELD_TO_PACKET_TYPE !! key = Some (cls r).
Proof.
  unfold get. intros H.
  destruct (from_buffer_copy PacketHeader (take 2048 datagram)) as [header|] eqn:Hh;
    [|discriminate].
  simpl in H. destruct (key_of header) as [key|] eqn:Hk; [|discriminate].
  simpl in H.
  destruct (HEADER_FIELD_TO_PACKET_TYPE !! key) as [L|] eqn:HL; [|discriminate].
  exists header, key. repeat split; eauto using dispatch_lookup_registered.
  unfold unpack, from_buffer_copy in H.
  destruct (_ <? _)%nat; [discriminate|]. by injection H as <-.
Qed.

(** ** Rounding *)

Lemma round_half_even_nearest (num den : Z) :
  0 < den ->
  Z.abs (2 * num - 2 * round_half_even num den * den) <= den.
Proof.
  intros Hden. unfold round_half_even.
  pose proof (Z.div_mod num den ltac:(lia)) as Hdm.
  pose proof (Z.mod_pos_bound num den Hden) as Hb.
  destruct (Z.compare_spec (2 * (num mod den)) den) as [Heq|Hlt|Hgt];
    [destruct (Z.even (num / den))|..]; nia.
Qed.

(** ** Layout sizes *)

(** C1 (as stated, refuted): the header is not 24 bytes long. *)
Lemma header_size_is_not_24 : size PacketHeader <> 24%nat.
Proof. vm_compute. discriminate. Qed.

(** C1 (amended): the common header is a fixed 29-byte prefix:
    [PacketHeader.size()] is 29, it is the first member (offset 0) of
    each of the 14 registered layouts, and the motion layout registered
    under key (2023, 1, 0) is 29 + 22 * 60 bytes long. *)
Theorem header_size_29_and_motion_size :
  size PacketHeader = 29%nat
  /\ map (fun k => HEADER_FIELD_TO_PACKET_TYPE !! (2023, 1, k)
                    ≫= fun L => class_attr "header" (descriptors L))
         [0; 1; 2; 3; 4; 5; 6; 7; 8; 9; 10; 11; 12; 13]
     = repeat (Some (MkCField 0 PacketHeader)) 14
  /\ HEADER_FIELD_TO_PACKET_TYPE !! (2023, 1, 0) = Some PacketMotionData
  /\ size CarMotionData = 60%nat
  /\ size PacketMotionData = (29 + 22 * 60)%nat.
Proof. repeat split; vm_compute; reflexivity. Qed.

(** C5: every key (2023, 1, k) with k in 0..13 resolves to a layout, and
    the sizes are the documented ones except for kind 13: the extended
    motion layout measures 205 bytes where its docstring says 217,
    because [m_wheelVertForce] is declared [c_float] and not
    [c_float * 4]. *)
Theorem dispatch_sizes_motion_ex_205 :
  map (fun k => size <$> HEADER_FIELD_TO_PACKET_TYPE !! (2023, 1, k))
      [0; 1; 2; 3; 4; 5; 6; 7; 8; 9; 10; 11; 12; 13]
  = map Some [1349; 644; 1131; 45; 1306; 1107; 1352; 1239; 1020; 1218;
              953; 1460; 231; 205]%nat
  /\ HEADER_FIELD_TO_PACKET_TYPE !! (2023, 1, 13) = Some PacketMotionExData
  /\ class_attr "m_wheelVertForce" (descriptors PacketMotionExData)
     = Some (MkCField 201 c_float)
  /\ size PacketMotionExData <> 217%nat.
Proof. repeat split; vm_compute; try reflexivity; discriminate. Qed.

(** ** The event packet *)

(** C2 (as stated, refuted): a datagram whose code "ZZZZ" is none of the
    known event codes decodes, and in the "FTLP" datagram the members of
    the other variants are populated from the same bytes. *)
Lemma event_decode_ignores_code :
  ("ZZZZ" ∉ EVENT_CODES)
  /\ get unknown_code_event = Ok (CData PacketEventData unknown_code_event)
  /\ getattr (CData PacketEventData unknown_code_event) "event_string_code"
     = Ok (PyCData (CData (Array c_uint8 4) (bytes_of (ascii_codes "ZZZZ"))))
  /\ ((get ftlp_event ≫= to_dict)
        ≫= fun top => Ok (item "event_details" top ≫= item "retirement"))
     = Ok (Some (PyDict [("vehicle_idx", PyInt 7)])).
Proof.
  split; [|repeat split; vm_compute; reflexivity].
  intros H. unfold EVENT_CODES in H. elem_of_cases H; discriminate H.
Qed.

(** C2 (amended): decoding an event packet does not interpret the code.
    Every datagram of at least 45 bytes whose header key is (2023, 1, 3)
    decodes to the event layout over its first 45 bytes; the code is
    kept as an array of four bytes, and the 12 bytes after it are exposed
    under each of the 12 members of the union at once, every member
    reading from the first of those bytes. *)
Theorem event_decode_exposes_all_variants (datagram : list byte) (header : cdata) :
  (45 <= length datagram)%nat ->
  from_buffer_copy PacketHeader (take 2048 datagram) = Ok header ->
  key_of header = Ok (2023, 1, 3) ->
  let r := CData PacketEventData (take 45 datagram) in
  let details := CData EventDataDetails (slice 33 12 datagram) in
  get datagram = Ok r
  /\ getattr r "event_string_code"
     = Ok (PyCData (CData (Array c_uint8 4) (slice 29 4 datagram)))
  /\ getattr r "event_details" = Ok (PyCData details)
  /\ length (_fields_ EventDataDetails) = 12%nat
  /\ forall name variant, (name, variant) ∈ _fields_ EventDataDetails ->
       getattr details name
       = Ok (PyCData (CData variant (slice 0 (sizeof variant) (raw details)))).
Proof.
  intros Hlen Hh Hk r details. split; [|split; [|split; [|split]]].
  - unfold get. rewrite Hh. simpl. rewrite Hk. simpl.
    assert (HEADER_FIELD_TO_PACKET_TYPE !! (2023, 1, 3) = Some PacketEventData)
      as -> by (vm_compute; reflexivity).
    unfold unpack, from_buffer_copy.
    change (sizeof PacketEventData) with 45%nat.
    destruct (Nat.ltb_spec (length (take 2048 datagram)) 45) as [Hlt|_].
    { rewrite length_take in Hlt. lia. }
    unfold r. rewrite take_take. do 3 f_equal.
  - unfold getattr, r. simpl cls.
    assert (class_attr "event_string_code" (descriptors PacketEventData)
            = Some (MkCField 29 (Array c_uint8 4))) as -> by (vm_compute; reflexivity).
    simpl. by rewrite slice_take by lia.
  - unfold getattr, r, details. simpl cls.
    assert (class_attr "event_details" (descriptors PacketEventData)
            = Some (MkCField 33 EventDataDetails)) as -> by (vm_compute; reflexivity).
    change (sizeof (ftype (MkCField 33 EventDataDetails))) with 12%nat.
    simpl. by rewrite slice_take by lia.
  - reflexivity.
  - intros name variant Hin. unfold getattr. simpl cls.
    unfold EventDataDetails, _fields_ in Hin.
    elem_of_cases Hin; injection Hin as -> ->; reflexivity.
Qed.

Lemma event_decode_exposes_all_variants_witness :
  get ftlp_event = Ok (CData PacketEventData ftlp_event)
  /\ getattr (CData EventDataDetails (slice 33 12 ftlp_event)) "fastest_lap"
     = Ok (PyCData fastest_lap_sample)
  /\ getattr (CData EventDataDetails (slice 33 12 ftlp_event)) "speed_trap"
     = Ok (PyCData (CData SpeedTrap (slice 33 12 ftlp_event))).
Proof.
  destruct (event_decode_exposes_all_variants ftlp_event
              (CData PacketHeader (take 29 ftlp_event)))
    as (Hg & _ & _ & _ & Hv).
  - vm_compute. lia.
  - vm_compute. reflexivity.
  - vm_compute. reflexivity.
  - split; [exact Hg|]. split.
    + apply (Hv "fastest_lap" FastestLap). by repeat constructor.
    + apply (Hv "speed_trap" SpeedTrap). by repeat constructor.
Defined.

(** ** Decoding and serialising *)

(** C3 (as stated, refuted): a 46-byte buffer decodes under the 45-byte
    event layout, and its last byte is dropped. *)
Lemma unpack_accepts_longer_buffer :
  length overlong_event <> size PacketEventData
  /\ unpack PacketEventData overlong_event
     = Ok (CData PacketEventData ftlp_event).
Proof. split; vm_compute; [discriminate | reflexivity]. Qed.

(** C3 (amended): for every layout L and buffer b, [unpack] succeeds if
    and only if [len(b) >= L.size()].  A shorter buffer raises
    [ValueError] with the actual and the required length; a buffer of
    sufficient length yields the record made of its first [L.size()]
    bytes, so trailing bytes are dropped and nothing is ever padded. *)
Theorem unpack_succeeds_iff_long_enough (L : ctype) (b : list byte) :
  ((exists r, unpack L b = Ok r) <-> (size L <= length b)%nat)
  /\ ((length b < size L)%nat ->
      unpack L b = Raise (ValueError (length b) (size L)))
  /\ ((size L <= length b)%nat ->
      unpack L b = Ok (CData L (take (size L) b))
      /\ length (take (size L) b) = size L).
Proof.
  unfold unpack, from_buffer_copy, size.
  destruct (Nat.ltb_spec (length b) (sizeof L)) as [Hlt|Hge].
  - split; [split|split].
    + intros [r Hr]. discriminate.
    + lia.
    + done.
    + lia.
  - split; [split|split].
    + lia.
    + eauto.
    + lia.
    + intros _. split; [done|]. rewrite length_take. lia.
Qed.

Lemma unpack_succeeds_iff_long_enough_witness :
  (length tyre_set_sample < size PacketTyreSetsData)%nat
  /\ unpack PacketTyreSetsData tyre_set_sample = Raise (ValueError 10 231).
Proof.
  split; [vm_compute; lia|].
  apply (proj1 (proj2 (unpack_succeeds_iff_long_enough PacketTyreSetsData tyre_set_sample))).
  vm_compute; lia.
Defined.

(** C4: when the header of a datagram carries a triple
    (packet_format, packet_version, packet_id) that is not one of the 14
    registered keys, [get] raises [KeyError] for that triple; there is no
    fallback layout. *)
Theorem get_unregistered_key_fails
    (datagram : list byte) (header : cdata) (key : Z * Z * Z) :
  from_buffer_copy PacketHeader (take 2048 datagram) = Ok header ->
  key_of header = Ok key ->
  ~ registered_key key ->
  get datagram = Raise (KeyError key).
Proof.
  intros Hh Hk Hn. unfold get. rewrite Hh. simpl. rewrite Hk. simpl.
  by rewrite dispatch_lookup_unregistered.
Qed.

Lemma get_unregistered_key_fails_witness :
  get unregistered_datagram = Raise (KeyError (2022, 1, 0)).
Proof.
  apply (get_unregistered_key_fails unregistered_datagram
           (CData PacketHeader (take 29 unregistered_datagram))).
  - vm_compute. reflexivity.
  - vm_compute. reflexivity.
  - intros [k [_ Hk]]. discriminate Hk.
Defined.

(** C8: every record of a layout L (freshly created, decoded from a
    buffer, or reached from such a record through its attributes and
    array elements) serialises to exactly [L.size()] bytes. *)
Theorem pack_length_is_size (L : ctype) (r : cdata) :
  instance_of L r -> length (pack r) = size L.
Proof.
  unfold pack, size. intros H.
  enough (cls r = L /\ length (raw r) = sizeof L) by tauto.
  induction H as [L|L buffer r Hr|L r field c _ [Hc Hl] Hg|L a c _ [Hc Hl] Hin].
  - split; [done|]. simpl. apply repeat_length.
  - apply unpack_inv in Hr as [Hlen ->]. split; [done|].
    simpl. rewrite length_take. lia.
  - unfold getattr in Hg.
    destruct (class_attr field (descriptors (cls r))) as [d|] eqn:Hd; [|discriminate].
    injection Hg as Hg. apply getfunc_cdata_eq in Hg. subst c. split; [done|].
    apply class_attr_elem, descriptors_fit in Hd. rewrite Hc in Hd.
    cbn [cls raw]. apply length_slice. lia.
  - unfold array_items in Hin. rewrite Hc in Hin.
    destruct L as [| | | | | | | | |elt n| |];
      try (by apply elem_of_nil in Hin).
    apply list_elem_of_fmap_1 in Hin as (i & Hi & Hrange).
    symmetry in Hi. apply getfunc_cdata_eq in Hi. subst c. split; [done|].
    apply elem_of_seq in Hrange. cbn [cls raw].
    change (sizeof (Array elt n)) with (n * sizeof elt)%nat in Hl.
    apply length_slice. nia.
Qed.

Lemma pack_length_is_size_witness :
  exists r header,
    unpack PacketEventData overlong_event = Ok r
    /\ length (pack r) = 45%nat
    /\ getattr r "header" = Ok (PyCData header)
    /\ length (pack header) = 29%nat.
Proof.
  exists (CData PacketEventData ftlp_event),
         (CData PacketHeader (take 29 ftlp_event)).
  assert (instance_of PacketEventData (CData PacketEventData ftlp_event)) as Hi.
  { apply (instance_unpacked _ overlong_event). vm_compute; reflexivity. }
  split; [vm_compute; reflexivity|].
  split; [by apply (pack_length_is_size PacketEventData)|].
  split; [vm_compute; reflexivity|].
  apply (pack_length_is_size PacketHeader).
  refine (instance_attribute PacketEventData _ "header"
            (CData PacketHeader (take 29 ftlp_event)) Hi _).
  vm_compute; reflexivity.
Defined.

(** ** Strict UTF-8 *)

(** Turns a boolean test of the decoder into arithmetic. *)
Ltac test_to_Z C :=
  unfold continuation in C;
  rewrite ?andb_true_iff, ?negb_true_iff, ?andb_false_iff, ?negb_false_iff,
    ?Z.leb_le, ?Z.ltb_lt, ?Z.eqb_eq, ?Z.leb_gt, ?Z.ltb_ge, ?Z.eqb_neq in C.

Lemma utf8_decode_scalars (bs : list byte) (pos : nat) (s : list Z) :
  utf8_decode pos bs = Ok s ->
  (length s <= length bs)%nat
  /\ Forall scalar_value s
  /\ (Forall (fun b => b <> x00) bs -> Forall (fun c => c <> 0) s).
Proof.
  remember (length bs) as n eqn:Hn. revert bs pos s Hn.
  induction (lt_wf n) as [n _ IH]. intros bs pos s -> H.
  destruct bs as [|b0 r0]; [injection H as <-; by repeat split|].
  cbn [utf8_decode] in H. pose proof (byte_val_range b0) as R0.
  assert (forall (rest : list byte) p s',
            (length rest < length (b0 :: r0))%nat ->
            utf8_decode p rest = Ok s' ->
            (length s' <= length rest)%nat /\ Forall scalar_value s'
            /\ (Forall (fun b => b <> x00) rest -> Forall (fun c => c <> 0) s'))
    as IH' by (intros rest p s' Hlt Hd; by eapply (IH (length rest))).
  destruct (byte_val b0 <? 128) eqn:C0.
  { destruct (utf8_decode (S pos) r0) as [s'|] eqn:E; [|discriminate].
    injection H as <-. apply IH' in E as (Hlen & Hsc & Hnz); [|simpl; lia].
    test_to_Z C0. split; [simpl; lia|]. split.
    - constructor; [unfold scalar_value; lia|done].
    - intros [Hb Hr]%Forall_cons. constructor; [|by apply Hnz].
      by rewrite byte_val_zero. }
  destruct ((194 <=? byte_val b0) && (byte_val b0 <=? 223)) eqn:C2.
  { destruct r0 as [|b1 r1]; [discriminate|].
    pose proof (byte_val_range b1) as R1.
    destruct (continuation (byte_val b1)) eqn:C; [|discriminate].
    destruct (utf8_decode (2 + pos) r1) as [s'|] eqn:E; [|discriminate].
    injection H as <-. apply IH' in E as (Hlen & Hsc & Hnz); [|simpl; lia].
    test_to_Z C2. test_to_Z C. split; [simpl; lia|]. split.
    - constructor; [unfold scalar_value; lia|done].
    - intros Hall. constructor; [lia|].
      apply Hnz. repeat (apply Forall_cons in Hall as [_ Hall]). done. }
  destruct ((224 <=? byte_val b0) && (byte_val b0 <=? 239)) eqn:C3.
  { destruct r0 as [|b1 [|b2 r2]]; try discriminate.
    pose proof (byte_val_range b1) as R1. pose proof (byte_val_range b2) as R2.
    destruct (_ && _ && _ && _) eqn:C in H; [|discriminate].
    destruct (utf8_decode (3 + pos) r2) as [s'|] eqn:E; [|discriminate].
    injection H as <-. apply IH' in E as (Hlen & Hsc & Hnz); [|simpl; lia].
    test_to_Z C3. test_to_Z C. split; [simpl; lia|]. split.
    - constructor; [unfold scalar_value; lia|done].
    - intros Hall. constructor; [lia|].
      apply Hnz. repeat (apply Forall_cons in Hall as [_ Hall]). done. }
  destruct ((240 <=? byte_val b0) && (byte_val b0 <=? 244)) eqn:C4; [|discriminate].
  destruct r0 as [|b1 [|b2 [|b3 r3]]]; try discriminate.
  pose proof (byte_val_range b1) as R1. pose proof (byte_val_range b2) as R2.
  pose proof (byte_val_range b3) as R3.
  destruct (_ && _ && _ && _ && _) eqn:C in H; [|discriminate].
  destruct (utf8_decode (4 + pos) r3) as [s'|] eqn:E; [|discriminate].
  injection H as <-. apply IH' in E as (Hlen & Hsc & Hnz); [|simpl; lia].
  test_to_Z C4. test_to_Z C. split; [simpl; lia|]. split.
  - constructor; [unfold scalar_value; lia|done].
  - intros Hall. constructor; [lia|].
    apply Hnz. repeat (apply Forall_cons in Hall as [_ Hall]). done.
Qed.

Lemma byte_val_small (z : Z) : 0 <= z < 256 -> byte_val (byte_of_Z z) = z.
Proof. intros H. rewrite byte_val_byte_of_Z. by apply Z.mod_small. Qed.

Lemma byte_of_Z_byte_val (b : byte) : byte_of_Z (byte_val b) = b.
Proof. by destruct b. Qed.

(** Settles the next test in the goal by arithmetic. *)
Ltac settle_test :=
  match goal with
  | |- context [if ?b then _ else _] =>
      let C := fresh "C" in
      destruct b eqn:C;
      try (exfalso; test_to_Z C; Z.to_euclidean_division_equations; lia);
      clear C
  end.

(** The decoder reads the encoding of a scalar value back, and goes on
    with what follows it. *)
Lemma utf8_decode_encode_char (c : Z) (rest : list byte) (pos : nat) :
  scalar_value c ->
  exists pos',
    utf8_decode pos (utf8_encode_char c ++ rest)
    = (s ← utf8_decode pos' rest; Ok (c :: s)).
Proof.
  intros [R NS]. unfold utf8_encode_char.
  destruct (Z.ltb_spec c 128) as [H1|H1].
  { exists (S pos). cbn [app utf8_decode]. rewrite byte_val_small by lia.
    by settle_test. }
  destruct (Z.ltb_spec c 2048) as [H2|H2].
  { exists (2 + pos)%nat. cbn [app utf8_decode].
    rewrite !byte_val_small by (Z.to_euclidean_division_equations; lia).
    do 3 settle_test.
    replace ((192 + c / 64 - 192) * 64 + (128 + c mod 64 - 128)) with c
      by (Z.to_euclidean_division_equations; lia).
    done. }
  destruct (Z.ltb_spec c 65536) as [H3|H3].
  { exists (3 + pos)%nat. cbn [app utf8_decode].
    rewrite !byte_val_small by (Z.to_euclidean_division_equations; lia).
    do 4 settle_test.
    replace ((224 + c / 4096 - 224) * 4096 + (128 + (c / 64) mod 64 - 128) * 64
             + (128 + c mod 64 - 128)) with c
      by (Z.to_euclidean_division_equations; lia).
    done. }
  exists (4 + pos)%nat. cbn [app utf8_decode].
  rewrite !byte_val_small by (Z.to_euclidean_division_equations; lia).
  do 5 settle_test.
  replace ((240 + c / 262144 - 240) * 262144 + (128 + (c / 4096) mod 64 - 128) * 4096
           + (128 + (c / 64) mod 64 - 128) * 64 + (128 + c mod 64 - 128)) with c
    by (Z.to_euclidean_division_equations; lia).
  done.
Qed.

Lemma utf8_decode_encode (s : list Z) (pos : nat) :
  Forall scalar_value s -> utf8_decode pos (utf8_encode s) = Ok s.
Proof.
  intros H. revert pos. induction H as [|c s Hc _ IH]; intros pos; [done|].
  cbn [utf8_encode flat_map].
  destruct (utf8_decode_encode_char c (flat_map utf8_encode_char s) pos Hc)
    as [pos' ->].
  fold (utf8_encode s). by rewrite IH.
Qed.

(** The encoding of what the decoder makes of a lead byte and its
    continuation bytes is those bytes again. *)
Lemma utf8_encode_char_1 (v0 : Z) :
  v0 < 128 -> utf8_encode_char v0 = [byte_of_Z v0].
Proof. intros H. unfold utf8_encode_char. by settle_test. Qed.

Lemma utf8_encode_char_2 (v0 v1 : Z) :
  194 <= v0 <= 223 -> 128 <= v1 <= 191 ->
  utf8_encode_char ((v0 - 192) * 64 + (v1 - 128)) = [byte_of_Z v0; byte_of_Z v1].
Proof.
  intros H0 H1. unfold utf8_encode_char. do 2 settle_test.
  repeat f_equal; Z.to_euclidean_division_equations; lia.
Qed.

Lemma utf8_encode_char_3 (v0 v1 v2 : Z) :
  224 <= v0 <= 239 -> 128 <= v1 <= 191 -> 128 <= v2 <= 191 ->
  ~ (v0 = 224 /\ v1 < 160) ->
  utf8_encode_char ((v0 - 224) * 4096 + (v1 - 128) * 64 + (v2 - 128))
  = [byte_of_Z v0; byte_of_Z v1; byte_of_Z v2].
Proof.
  intros H0 H1 H2 Hn. unfold utf8_encode_char. do 3 settle_test.
  repeat f_equal; Z.to_euclidean_division_equations; lia.
Qed.

Lemma utf8_encode_char_4 (v0 v1 v2 v3 : Z) :
  240 <= v0 <= 244 -> 128 <= v1 <= 191 -> 128 <= v2 <= 191 ->
  128 <= v3 <= 191 -> ~ (v0 = 240 /\ v1 < 144) ->
  utf8_encode_char ((v0 - 240) * 262144 + (v1 - 128) * 4096
                    + (v2 - 128) * 64 + (v3 - 128))
  = [byte_of_Z v0; byte_of_Z v1; byte_of_Z v2; byte_of_Z v3].
Proof.
  intros H0 H1 H2 H3 Hn. unfold utf8_encode_char. do 3 settle_test.
  repeat f_equal; Z.to_euclidean_division_equations; lia.
Qed.

Lemma utf8_encode_decode (bs : list byte) (pos : nat) (s : list Z) :
  utf8_decode pos bs = Ok s -> utf8_encode s = bs.
Proof.
  remember (length bs) as n eqn:Hn. revert bs pos s Hn.
  induction (lt_wf n) as [n _ IH]. intros bs pos s -> H.
  destruct bs as [|b0 r0]; [by injection H as <-|].
  cbn [utf8_decode] in H. pose proof (byte_val_range b0) as R0.
  assert (forall (rest : list byte) p s',
            (length rest < length (b0 :: r0))%nat ->
            utf8_decode p rest = Ok s' -> utf8_encode s' = rest)
    as IH' by (intros rest p s' Hlt Hd; by eapply (IH (length rest))).
  destruct (byte_val b0 <? 128) eqn:C0.
  { destruct (utf8_decode (S pos) r0) as [s'|] eqn:E; [|discriminate].
    injection H as <-. apply IH' in E; [|simpl; lia].
    test_to_Z C0. cbn [utf8_encode flat_map]. fold (utf8_encode s').
    by rewrite utf8_encode_char_1, byte_of_Z_byte_val, E. }
  destruct ((194 <=? byte_val b0) && (byte_val b0 <=? 223)) eqn:C2.
  { destruct r0 as [|b1 r1]; [discriminate|].
    destruct (continuation (byte_val b1)) eqn:C; [|discriminate].
    destruct (utf8_decode (2 + pos) r1) as [s'|] eqn:E; [|discriminate].
    injection H as <-. apply IH' in E; [|simpl; lia].
    test_to_Z C2. test_to_Z C. cbn [utf8_encode flat_map]. fold (utf8_encode s').
    by rewrite utf8_encode_char_2, !byte_of_Z_byte_val, E by lia. }
  destruct ((224 <=? byte_val b0) && (byte_val b0 <=? 239)) eqn:C3.
  { destruct r0 as [|b1 [|b2 r2]]; try discriminate.
    destruct (_ && _ && _ && _) eqn:C in H; [|discriminate].
    destruct (utf8_decode (3 + pos) r2) as [s'|] eqn:E; [|discriminate].
    injection H as <-. apply IH' in E; [|simpl; lia].
    test_to_Z C3. test_to_Z C. cbn [utf8_encode flat_map]. fold (utf8_encode s').
    by rewrite utf8_encode_char_3, !byte_of_Z_byte_val, E by lia. }
  destruct ((240 <=? byte_val b0) && (byte_val b0 <=? 244)) eqn:C4; [|discriminate].
  destruct r0 as [|b1 [|b2 [|b3 r3]]]; try discriminate.
  destruct (_ && _ && _ && _ && _) eqn:C in H; [|discriminate].
  destruct (utf8_decode (4 + pos) r3) as [s'|] eqn:E; [|discriminate].
  injection H as <-. apply IH' in E; [|simpl; lia].
  test_to_Z C4. test_to_Z C. cbn [utf8_encode flat_map]. fold (utf8_encode s').
  by rewrite utf8_encode_char_4, !byte_of_Z_byte_val, E by lia.
Qed.

(** [bytes.decode()] is the inverse of the UTF-8 encoding of strings of
    scalar values: it accepts their encodings, nothing else, and gives
    the string back. *)
Lemma decode_utf8 (bs : list byte) (s : list Z) :
  decode bs = Ok s <-> Forall scalar_value s /\ utf8_encode s = bs.
Proof.
  unfold decode. split.
  - intros H. split; [by apply utf8_decode_scalars in H as (_ & ? & _)|].
    by apply utf8_encode_decode in H.
  - intros [Hs <-]. by apply utf8_decode_encode.
Qed.

(** What is read is a prefix of the buffer, and what it leaves out is
    nothing or starts with a NUL. *)
Lemma until_nul_split (bs : list byte) :
  exists rest : list byte,
    bs = (until_nul bs ++ rest)%list
    /\ (rest = [] \/ exists rest', rest = x00 :: rest').
Proof.
  induction bs as [|b bs (rest & IH & Hr)]; [by exists []; split; [|left]|].
  cbn [until_nul]. destruct (byte_val b =? 0) eqn:E.
  - exists (b :: bs). split; [done|]. right. exists bs.
    apply Z.eqb_eq, byte_val_zero in E. by subst b.
  - exists rest. split; [|done]. simpl. by f_equal.
Qed.

Lemma until_nul_all (bs : list byte) :
  Forall (fun b => b <> x00) bs -> until_nul bs = bs.
Proof.
  induction 1 as [|b bs Hb _ IH]; simpl; [done|].
  destruct (Z.eqb_spec (byte_val b) 0) as [Hz|_].
  - by apply byte_val_zero in Hz.
  - by rewrite IH.
Qed.

(** ** Canonicalisation *)

(** C6: [to_dict] maps every float field (a field bound to [c_float] or
    [c_double], in any structure or union, nested or not) to
    [round(value, 3)], where [value] is what reading the attribute
    returns.  For a finite value this is the float nearest to n / 1000
    with n the integer nearest to 1000 * value.  The record is only read:
    the attribute still holds [value]. *)
Theorem to_dict_rounds_float_fields
    (self : cdata) (field : string) (d : CField) :
  class_attr field (descriptors (cls self)) = Some d ->
  ftype d = c_float \/ ftype d = c_double ->
  exists x,
    getattr self field = Ok (PyFloat x)
    /\ get_value to_dict self field = Ok (PyFloat (round x 3))
    /\ (forall entries, to_dict self = Ok (PyDict entries) ->
          dict_get field entries = Some (PyFloat (round x 3)))
    /\ (forall s m e, x = S754_finite s m e ->
          exists n, round x 3 = decimal_float s n 3
                    /\ Z.abs (2 * (Zpos m * 2 ^ Z.max e 0 * 1000)
                              - 2 * n * 2 ^ Z.max (- e) 0)
                       <= 2 ^ Z.max (- e) 0).
Proof.
  intros Hd Ht. destruct (getattr_float _ _ _ Hd Ht) as [x Hx].
  assert (get_value to_dict self field = Ok (PyFloat (round x 3)))
    as Hv by (unfold get_value; by rewrite Hx).
  exists x. repeat split; [done|done|..].
  - intros entries He.
    destruct (to_dict_entry _ _ _ _ Hd He) as (v & Hg & Hl).
    rewrite Hv in Hg. by injection Hg as <-.
  - intros s m e ->. exists (decimal_digits m e 3). split; [done|].
    unfold decimal_digits. change (10 ^ 3) with 1000.
    apply round_half_even_nearest. apply Z.pow_pos_nonneg; lia.
Qed.

Lemma to_dict_rounds_float_fields_witness :
  exists x,
    getattr fastest_lap_sample "lap_time" = Ok (PyFloat x)
    /\ x = S754_finite false 8687499069095936 (-46)
    /\ (to_dict fastest_lap_sample ≫= fun top => Ok (item "lap_time" top))
       = Ok (Some (PyFloat (round x 3)))
    /\ round x 3 = decimal_float false 123457 3
    /\ decimal_float false 123457 3 = S754_finite false 8687514049941864 (-46).
Proof.
  destruct (to_dict_rounds_float_fields fastest_lap_sample "lap_time"
              (MkCField 1 c_float) eq_refl (or_introl eq_refl))
    as (x & Hx & _ & Hd & _).
  exists x. split; [exact Hx|].
  assert (x = S754_finite false 8687499069095936 (-46)) as Hval.
  { vm_compute in Hx. by injection Hx. }
  split; [exact Hval|].
  destruct (to_dict fastest_lap_sample) as [[| | | | |entries|]|] eqn:E;
    try (vm_compute in E; discriminate E).
  split; [simpl; f_equal; by apply Hd|].
  subst x. split; vm_compute; reflexivity.
Defined.

(** Elements of a float array are not fields and are emitted as read:
    [tyres_wear] of [CarDamageData] is a [c_float * 4]. *)
Lemma float_array_elements_not_rounded :
  get_value to_dict
    (CData CarDamageData
           (bytes_of (f32_123_456789 ++ f32_123_456789 ++ repeat 0 34)))
    "tyres_wear"
  = Ok (PyList [ PyFloat (S754_finite false 8687499069095936 (-46));
                 PyFloat (S754_finite false 8687499069095936 (-46));
                 PyFloat (S754_zero false);
                 PyFloat (S754_zero false) ]).
Proof. vm_compute. reflexivity. Qed.

(** C7: a fixed-width character buffer (a field bound to [c_char * n])
    reads as the bytes before its first NUL, whatever follows the NUL,
    and as the whole buffer when it holds no NUL.  [to_dict] renders
    these bytes as the string they are the UTF-8 encoding of: one to
    four bytes a character, the result made of Unicode scalar values.
    When they are the UTF-8 encoding of no string [to_dict] raises
    [UnicodeDecodeError] instead of returning a dict. *)
Theorem char_buffer_canonicalisation
    (self : cdata) (field : string) (d : CField) (n : nat) :
  class_attr field (descriptors (cls self)) = Some d ->
  ftype d = Array c_char n ->
  let stored := slice (offset d) (sizeof (ftype d)) (raw self) in
  let text := until_nul stored in
  getattr self field = Ok (PyBytes text)
  /\ (exists rest : list byte,
        stored = (text ++ rest)%list
        /\ Forall (fun b => b <> x00) text
        /\ (rest = [] \/ exists rest', rest = x00 :: rest'))
  /\ (forall pre post : list byte, stored = (pre ++ x00 :: post)%list ->
        Forall (fun b => b <> x00) pre -> text = pre)
  /\ (Forall (fun b => b <> x00) stored -> text = stored)
  /\ (forall s, decode text = Ok s <-> Forall scalar_value s /\ utf8_encode s = text)
  /\ (forall s, Forall scalar_value s -> utf8_encode s = text ->
        get_value to_dict self field = Ok (PyStr s))
  /\ (forall s entries, decode text = Ok s ->
        to_dict self = Ok (PyDict entries) ->
        dict_get field entries = Some (PyStr s))
  /\ (forall e, decode text = Raise e ->
        get_value to_dict self field = Raise e
        /\ exists p, to_dict self = Raise (UnicodeDecodeError p))
  /\ ((forall s, Forall scalar_value s -> utf8_encode s <> text) ->
        exists p, to_dict self = Raise (UnicodeDecodeError p)).
Proof.
  intros Hd Ht stored text.
  assert (getattr self field = Ok (PyBytes text)) as Hg.
  { unfold getattr. rewrite Hd. subst text stored. by rewrite Ht. }
  assert (get_value to_dict self field = (s ← decode text; Ok (PyStr s))) as Hv.
  { unfold get_value. by rewrite Hg. }
  assert (forall e, decode text = Raise e ->
            get_value to_dict self field = Raise e
            /\ exists p, to_dict self = Raise (UnicodeDecodeError p)) as Hraise.
  { intros e He.
    assert (get_value to_dict self field = Raise e) as Hr by (by rewrite Hv, He).
    split; [done|]. eapply to_dict_raises; eauto. }
  split; [done|].
  split; [|split; [|split; [|split; [|split; [|split; [|split]]]]]].
  - destruct (until_nul_split stored) as (rest & Hs & Hr).
    exists rest. split; [done|]. split; [apply until_nul_no_nul|done].
  - intros pre post Hs Hpre. subst text. rewrite Hs. by apply until_nul_app.
  - apply until_nul_all.
  - intros s. apply decode_utf8.
  - intros s Hs He. rewrite Hv.
    assert (decode text = Ok s) as -> by (by apply decode_utf8). done.
  - intros s entries Hs He.
    destruct (to_dict_entry _ _ _ _ Hd He) as (v & Hgv & Hl).
    rewrite Hv, Hs in Hgv. simpl in Hgv. by injection Hgv as <-.
  - exact Hraise.
  - intros Hno. destruct (decode text) as [s|e] eqn:E.
    + apply decode_utf8 in E as [Hs He]. by destruct (Hno s Hs).
    + by destruct (Hraise e eq_refl) as [_ ?].
Qed.

Lemma char_buffer_canonicalisation_witness :
  getattr (participant_sample (ascii_codes "Max")) "name"
  = Ok (PyBytes (bytes_of (ascii_codes "Max")))
  /\ getattr (participant_sample (ascii_codes "Max" ++ [0; 74; 114])) "name"
     = Ok (PyBytes (bytes_of (ascii_codes "Max")))
  /\ dict_get "name"
       (match to_dict (participant_sample (ascii_codes "Max")) with
        | Ok (PyDict entries) => entries
        | _ => []
        end)
     = Some (PyStr (ascii_codes "Max"))
  /\ to_dict (participant_sample [77; 0xff; 120]) = Raise (UnicodeDecodeError 1)
  /\ get_value to_dict (participant_sample multibyte_name) "name"
     = Ok (PyStr multibyte_text)
  /\ getattr (participant_sample (repeat 65 48)) "name"
     = Ok (PyBytes (bytes_of (repeat 65 48))).
Proof.
  pose proof (char_buffer_canonicalisation
                (participant_sample (ascii_codes "Max")) "name"
                (MkCField 7 (Array c_char 48)) 48 eq_refl eq_refl)
    as (Hg & _ & _ & _ & _ & _ & Hd & _).
  pose proof (char_buffer_canonicalisation
                (participant_sample multibyte_name) "name"
                (MkCField 7 (Array c_char 48)) 48 eq_refl eq_refl)
    as (_ & _ & _ & _ & _ & Hm & _).
  pose proof (char_buffer_canonicalisation
                (participant_sample (repeat 65 48)) "name"
                (MkCField 7 (Array c_char 48)) 48 eq_refl eq_refl)
    as (Hw & _ & _ & Hall & _).
  split; [exact Hg|]. split; [vm_compute; reflexivity|].
  split; [|split; [vm_compute; reflexivity|split]].
  - destruct (to_dict (participant_sample (ascii_codes "Max")))
      as [[| | | | |entries|]|] eqn:E; try (vm_compute in E; discriminate E).
    apply (Hd (ascii_codes "Max") entries); [vm_compute|]; reflexivity.
  - apply Hm; [|vm_compute; reflexivity].
    unfold multibyte_text, scalar_value. repeat constructor; lia.
  - rewrite Hw, Hall; [vm_compute; reflexivity|].
    vm_compute. repeat (constructor; [discriminate|]). constructor.
Defined.

(** Overlong forms, surrogates and sequences cut short are no UTF-8:
    rendering a name that holds one raises. *)
Lemma malformed_names_raise :
  get_value to_dict (participant_sample [77; 0xC0; 0x80]) "name"
  = Raise (UnicodeDecodeError 1)
  /\ get_value to_dict (participant_sample [77; 0xE0; 0x80; 0x80]) "name"
     = Raise (UnicodeDecodeError 1)
  /\ get_value to_dict (participant_sample [77; 0xED; 0xA0; 0x80]) "name"
     = Raise (UnicodeDecodeError 1)
  /\ get_value to_dict (participant_sample [77; 0xF4; 0x90; 0x80; 0x80]) "name"
     = Raise (UnicodeDecodeError 1)
  /\ get_value to_dict (participant_sample (repeat 65 47 ++ [0xC3])) "name"
     = Raise (UnicodeDecodeError 47).
Proof. vm_compute. repeat split. Qed.

(** ** Two fields of the session history and tyre set records *)

(** C9: [LapHistoryData] declares eight fields in 14 bytes but binds the
    name [sector1_time_minutes] twice.  For every decoded instance,
    [to_dict] has seven keys; a field descriptor is bound under seven
    names only, and none of them covers the byte at offset 6;
    [sector1_time_minutes] reads the byte at offset 12; and the byte at
    offset 6 influences neither the access to any field name nor
    [to_dict]. *)
Theorem lap_history_duplicate_field (buffer : list byte) (self : cdata) :
  unpack LapHistoryData buffer = Ok self ->
  length (_fields_ LapHistoryData) = 8%nat
  /\ size LapHistoryData = 14%nat
  /\ to_dict self = Ok (PyDict
       [ ("lap_time_in_ms", PyInt (int_from_bytes_le (slice 0 4 buffer)));
         ("sector1_time_in_ms", PyInt (int_from_bytes_le (slice 4 2 buffer)));
         ("sector1_time_minutes", PyInt (int_from_bytes_le (slice 12 1 buffer)));
         ("sector2_time_in_ms", PyInt (int_from_bytes_le (slice 7 2 buffer)));
         ("sector2_time_minutes", PyInt (int_from_bytes_le (slice 9 1 buffer)));
         ("sector3_time_in_ms", PyInt (int_from_bytes_le (slice 10 2 buffer)));
         ("lap_valid_bit_flags", PyInt (int_from_bytes_le (slice 13 1 buffer))) ])
  /\ getattr self "sector1_time_minutes"
     = Ok (PyInt (int_from_bytes_le (slice 12 1 buffer)))
  /\ (forall field,
        field ∈ map fst (_fields_ LapHistoryData)
        <-> field ∈ [ "lap_time_in_ms"; "sector1_time_in_ms"; "sector1_time_minutes";
                      "sector2_time_in_ms"; "sector2_time_minutes";
                      "sector3_time_in_ms"; "lap_valid_bit_flags" ])
  /\ (forall field, field ∈ map fst (_fields_ LapHistoryData) ->
        exists d, class_attr field (descriptors (cls self)) = Some d
                  /\ getattr self field
                     = Ok (PyInt (int_from_bytes_le
                                    (slice (offset d) (sizeof (ftype d)) buffer)))
                  /\ ~ (offset d <= 6 < offset d + sizeof (ftype d))%nat)
  /\ (forall (x : byte),
        let self' := CData LapHistoryData (<[6%nat := x]> (raw self)) in
        (forall field, field ∈ map fst (_fields_ LapHistoryData) ->
           getattr self' field = getattr self field)
        /\ to_dict self' = to_dict self).
Proof.
  intros H. apply unpack_inv in H as [Hlen ->].
  change (sizeof LapHistoryData) with 14%nat in *.
  uncons_buffer buffer Hlen.
  split; [reflexivity|]. split; [reflexivity|].
  split; [reflexivity|]. split; [reflexivity|].
  split; [|split].
  - intros field. split; intros E.
    + vm_compute in E. elem_of_cases E; subst field; by repeat constructor.
    + elem_of_cases E; subst field; vm_compute; by repeat constructor.
  - intros field E. vm_compute in E.
    elem_of_cases E; subst field;
      (eexists; split; [vm_compute; reflexivity|];
       split; [reflexivity|cbn; lia]).
  - intros x self'. split; [|reflexivity].
    intros field _. unfold getattr, self'.
    change (cls (CData LapHistoryData ?r)) with LapHistoryData.
    destruct (class_attr field (descriptors LapHistoryData)) as [d|] eqn:E; [|done].
    apply class_attr_bound in E. vm_compute in E.
    elem_of_cases E; injection E as _ ->; reflexivity.
Qed.

Lemma lap_history_duplicate_field_witness :
  to_dict (CData LapHistoryData lap_history_sample)
  = Ok (PyDict
       [ ("lap_time_in_ms", PyInt 67305985);
         ("sector1_time_in_ms", PyInt 1541);
         ("sector1_time_minutes", PyInt 13);
         ("sector2_time_in_ms", PyInt 2312);
         ("sector2_time_minutes", PyInt 10);
         ("sector3_time_in_ms", PyInt 3083);
         ("lap_valid_bit_flags", PyInt 14) ])
  /\ getattr (CData LapHistoryData (<[6%nat := xff]> lap_history_sample))
             "sector1_time_minutes"
     = Ok (PyInt 13).
Proof.
  assert (unpack LapHistoryData lap_history_sample
          = Ok (CData LapHistoryData lap_history_sample)) as Hu
    by (vm_compute; reflexivity).
  destruct (lap_history_duplicate_field _ _ Hu) as (_ & _ & Hd & Hg & _ & _ & Hx).
  split; [exact Hd|].
  destruct (Hx xff) as [Hf _]. cbn [raw] in Hf.
  rewrite Hf; [|vm_compute; by repeat constructor].
  rewrite Hg. vm_compute. reflexivity.
Defined.

(** C10: [TyreSetData.lap_delta_time] reads the two bytes at offsets 7
    and 8 as an unsigned little-endian integer: the value is
    lo + 256 * hi, lies in [0, 65535], and when the two bytes were
    written as a negative int16 delta the value read is delta + 65536. *)
Theorem lap_delta_time_is_unsigned (buffer : list byte) (self : cdata) :
  unpack TyreSetData buffer = Ok self ->
  exists lo hi,
    slice 7 2 buffer = [lo; hi]
    /\ getattr self "lap_delta_time" = Ok (PyInt (byte_val lo + 256 * byte_val hi))
    /\ 0 <= byte_val lo + 256 * byte_val hi <= 65535
    /\ forall delta, -32768 <= delta < 0 ->
         [lo; hi] = int_to_bytes_le 2 delta ->
         byte_val lo + 256 * byte_val hi = delta + 65536.
Proof.
  intros H. apply unpack_inv in H as [Hlen ->].
  change (sizeof TyreSetData) with 10%nat in *.
  do 10 (destruct buffer as [|? buffer]; [simpl in Hlen; lia|]).
  exists b6, b7. split; [reflexivity|]. split; [|split].
  - cbv -[byte_val Z.add Z.mul]. do 2 f_equal. lia.
  - pose proof (byte_val_range b6). pose proof (byte_val_range b7). lia.
  - intros delta Hd [= -> ->]. rewrite !byte_val_byte_of_Z.
    pose proof (Z.div_mod delta 256 ltac:(lia)).
    pose proof (Z.mod_pos_bound delta 256 ltac:(lia)).
    assert ((delta / 256) mod 256 = delta / 256 + 256) as ->; [|lia].
    symmetry. apply Z.mod_unique with (q := -1); lia.
Qed.

Lemma lap_delta_time_is_unsigned_witness :
  exists self, unpack TyreSetData tyre_set_sample = Ok self
               /\ getattr self "lap_delta_time" = Ok (PyInt 65436).
Proof.
  exists (CData TyreSetData tyre_set_sample).
  assert (unpack TyreSetData tyre_set_sample = Ok (CData TyreSetData tyre_set_sample)) as Hu
    by (vm_compute; reflexivity).
  split; [exact Hu|].
  destruct (lap_delta_time_is_unsigned _ _ Hu) as (lo & hi & Hs & Hg & _ & _).
  vm_compute in Hs. injection Hs as <- <-. exact Hg.
Defined.

(** * More of the codec *)

(** ** Records and their bytes *)

Lemma instance_of_inv (L : ctype) (r : cdata) :
  instance_of L r -> cls r = L /\ length (raw r) = sizeof L.
Proof.
  induction 1 as [L|L buffer r Hr|L r field c _ [Hc Hl] Hg|L a c _ [Hc Hl] Hin].
  - split; [done|]. simpl. apply repeat_length.
  - apply unpack_inv in Hr as [Hlen ->]. split; [done|].
    simpl. rewrite length_take. lia.
  - unfold getattr in Hg.
    destruct (class_attr field (descriptors (cls r))) as [d|] eqn:Hd; [|discriminate].
    injection Hg as Hg. apply getfunc_cdata_eq in Hg. subst c. split; [done|].
    apply class_attr_elem, descriptors_fit in Hd. rewrite Hc in Hd.
    cbn [cls raw]. apply length_slice. lia.
  - unfold array_items in Hin. rewrite Hc in Hin.
    destruct L as [| | | | | | | | |elt n| |];
      try (by apply elem_of_nil in Hin).
    apply list_elem_of_fmap_1 in Hin as (i & Hi & Hrange).
    symmetry in Hi. apply getfunc_cdata_eq in Hi. subst c. split; [done|].
    apply elem_of_seq in Hrange. cbn [cls raw].
    change (sizeof (Array elt n)) with (n * sizeof elt)%nat in Hl.
    apply length_slice. nia.
Qed.

(** X1: serialising a record and decoding the bytes under its layout
    gives the record back. *)
Theorem unpack_pack_round_trip (L : ctype) (r : cdata) :
  instance_of L r -> unpack L (pack r) = Ok r.
Proof.
  intros [Hc Hl]%instance_of_inv. unfold unpack, from_buffer_copy, pack.
  destruct (Nat.ltb_spec (length (raw r)) (sizeof L)) as [Hlt|_]; [lia|].
  rewrite take_ge by lia. destruct r as [c bs]. simpl in Hc. by subst c.
Qed.

Lemma unpack_pack_round_trip_witness :
  unpack PacketEventData (pack (CData PacketEventData ftlp_event))
  = Ok (CData PacketEventData ftlp_event).
Proof.
  apply unpack_pack_round_trip.
  apply (instance_unpacked _ overlong_event). vm_compute; reflexivity.
Defined.

(** X2: decoding a buffer and serialising the record gives back the
    first [L.size()] bytes of the buffer: the buffer itself when it has
    exactly the size of the layout, a proper prefix of it otherwise. *)
Theorem pack_unpack_round_trip (L : ctype) (buffer : list byte) (r : cdata) :
  unpack L buffer = Ok r ->
  pack r = take (size L) buffer
  /\ (length buffer = size L -> pack r = buffer)
  /\ (length buffer <> size L ->
      exists dropped, dropped <> [] /\ buffer = (pack r ++ dropped)%list).
Proof.
  intros [Hlen ->]%unpack_inv. unfold pack, size. cbn [raw].
  split; [done|]. split.
  - intros Heq. apply take_ge. lia.
  - intros Hne. exists (drop (sizeof L) buffer). split.
    + intros Hnil. apply (f_equal length) in Hnil.
      rewrite length_drop in Hnil. simpl in Hnil. lia.
    + by rewrite take_drop.
Qed.

Lemma pack_unpack_round_trip_witness :
  pack (CData PacketEventData ftlp_event) = take 45 overlong_event
  /\ exists dropped, dropped <> []
       /\ overlong_event = (pack (CData PacketEventData ftlp_event) ++ dropped)%list.
Proof.
  destruct (pack_unpack_round_trip PacketEventData overlong_event
              (CData PacketEventData ftlp_event)) as (Hp & _ & Hd).
  - vm_compute. reflexivity.
  - split; [exact Hp|]. apply Hd. vm_compute. discriminate.
Defined.

(** ** The listener, case by case *)

Lemma byte_val_inj (a b : byte) : byte_val a = byte_val b -> a = b.
Proof.
  unfold byte_val. intros H.
  assert (Byte.to_N a = Byte.to_N b) as Hn by lia.
  pose proof (Byte.of_to_N a) as Ha. rewrite Hn, Byte.of_to_N in Ha.
  by injection Ha.
Qed.

Lemma key_of_header (datagram : list byte) :
  (29 <= length datagram)%nat ->
  key_of (CData PacketHeader (take 29 datagram)) = Ok (datagram_key datagram).
Proof.
  intros Hlen. do 7 (destruct datagram as [|? datagram]; [simpl in Hlen; lia|]).
  reflexivity.
Qed.

Lemma registered_layout (key : Z * Z * Z) (L : ctype) :
  HEADER_FIELD_TO_PACKET_TYPE !! key = Some L ->
  (29 <= sizeof L <= 1460)%nat
  /\ class_attr "header" (descriptors L) = Some (MkCField 0 PacketHeader).
Proof.
  intros H. unfold HEADER_FIELD_TO_PACKET_TYPE in H.
  apply elem_of_list_to_map_2 in H.
  elem_of_cases H; injection H as _ ->; (split; [vm_compute; lia|reflexivity]).
Qed.

(** X3: the whole behaviour of [get] in terms of the datagram.  A
    datagram shorter than the 29-byte header raises [ValueError]; one
    whose bytes 0-1, 5 and 6 do not form a registered key raises
    [KeyError]; one shorter than the layout of its key raises
    [ValueError]; any other decodes to the first [size()] bytes under
    that layout.  The 2048-byte bound of [recv] changes nothing, every
    layout being shorter. *)
Theorem get_outcome (datagram : list byte) :
  get datagram =
  if (length datagram <? 29)%nat then Raise (ValueError (length datagram) 29)
  else match HEADER_FIELD_TO_PACKET_TYPE !! datagram_key datagram with
       | None => Raise (KeyError (datagram_key datagram))
       | Some L =>
           if (length datagram <? size L)%nat
           then Raise (ValueError (length datagram) (size L))
           else Ok (CData L (take (size L) datagram))
       end.
Proof.
  unfold get, from_buffer_copy. change (sizeof PacketHeader) with 29%nat.
  rewrite length_take.
  destruct (Nat.ltb_spec (length datagram) 29) as [Hlt|Hge].
  - destruct (Nat.ltb_spec (2048 `min` length datagram) 29) as [_|?]; [|lia].
    cbn [mbind result_bind]. do 2 f_equal. lia.
  - destruct (Nat.ltb_spec (2048 `min` length datagram) 29) as [?|_]; [lia|].
    cbn [mbind result_bind]. rewrite take_take.
    change (29 `min` 2048)%nat with 29%nat.
    rewrite key_of_header by done. cbn [mbind result_bind].
    destruct (HEADER_FIELD_TO_PACKET_TYPE !! datagram_key datagram) as [L|] eqn:HL;
      [|done].
    apply registered_layout in HL as [HL _].
    unfold unpack, from_buffer_copy, size. rewrite length_take.
    destruct (Nat.ltb_spec (length datagram) (sizeof L));
      destruct (Nat.ltb_spec (2048 `min` length datagram) (sizeof L)); try lia.
    + do 2 f_equal. lia.
    + rewrite take_take. do 3 f_equal. lia.
Qed.

(** X4: what [get] returns was chosen by four bytes only: the datagram
    starts with e7 07 (2023), byte 5 is 1, byte 6 is at most 13, and the
    record has the layout registered for byte 6 and holds the first
    [size()] bytes of the datagram. *)
Theorem get_ok_dispatch_bytes (datagram : list byte) (r : cdata) :
  get datagram = Ok r ->
  take 2 datagram = [xe7; x07]
  /\ datagram !! 5%nat = Some x01
  /\ exists b6, datagram !! 6%nat = Some b6
       /\ 0 <= byte_val b6 <= 13
       /\ HEADER_FIELD_TO_PACKET_TYPE !! (2023, 1, byte_val b6) = Some (cls r)
       /\ pack r = take (size (cls r)) datagram.
Proof.
  rewrite get_outcome.
  destruct (Nat.ltb_spec (length datagram) 29) as [|Hlen]; [discriminate|].
  destruct (HEADER_FIELD_TO_PACKET_TYPE !! datagram_key datagram) as [L|] eqn:HL;
    [|discriminate].
  destruct (_ <? _)%nat; [discriminate|]. intros [= <-].
  pose proof (dispatch_lookup_registered _ _ HL) as (k & Hk & Hkey).
  do 7 (destruct datagram as [|? datagram]; [simpl in Hlen; lia|]).
  rewrite Hkey in HL. unfold datagram_key in Hkey. cbn in Hkey.
  injection Hkey as Hf Hv Hi.
  pose proof (byte_val_range b). pose proof (byte_val_range b0).
  assert (b = xe7 /\ b0 = x07) as [-> ->].
  { unfold to_signed in Hf.
    split; apply byte_val_inj; change (byte_val xe7) with 231;
      change (byte_val x07) with 7;
      destruct (_ <? _) in Hf; lia. }
  assert (b4 = x01) as -> by (apply byte_val_inj; change (byte_val x01) with 1; lia).
  split; [done|]. split; [done|]. exists b5. split; [done|].
  assert (byte_val b5 = k) as -> by lia. done.
Qed.

Lemma get_ok_dispatch_bytes_witness :
  take 2 ftlp_event = [xe7; x07]
  /\ HEADER_FIELD_TO_PACKET_TYPE !! (2023, 1, 3) = Some PacketEventData
  /\ get bare_event = Raise (ValueError 33 45)
  /\ get [] = Raise (ValueError 0 29).
Proof.
  destruct (get_ok_dispatch_bytes ftlp_event (CData PacketEventData ftlp_event))
    as (H2 & _ & b6 & Hb6 & _ & HL & _).
  - vm_compute. reflexivity.
  - split; [exact H2|]. vm_compute in Hb6. injection Hb6 as <-.
    split; [exact HL|]. split; vm_compute; reflexivity.
Defined.

(** X5: the header of a record returned by [get] is the header the
    dispatch read: it holds the first 29 bytes of the datagram, and the
    key it carries is the key the record's layout is registered under. *)
Theorem get_ok_header (datagram : list byte) (r : cdata) :
  get datagram = Ok r ->
  exists header key,
    getattr r "header" = Ok (PyCData header)
    /\ header = CData PacketHeader (take 29 datagram)
    /\ key_of header = Ok key
    /\ HEADER_FIELD_TO_PACKET_TYPE !! key = Some (cls r).
Proof.
  rewrite get_outcome.
  destruct (Nat.ltb_spec (length datagram) 29) as [|Hlen]; [discriminate|].
  destruct (HEADER_FIELD_TO_PACKET_TYPE !! datagram_key datagram) as [L|] eqn:HL;
    [|discriminate].
  destruct (_ <? _)%nat; [discriminate|]. intros [= <-].
  exists (CData PacketHeader (take 29 datagram)), (datagram_key datagram).
  pose proof (registered_layout _ _ HL) as [Hsize Hattr].
  split; [|split; [done|split; [by apply key_of_header|done]]].
  unfold getattr. cbn [cls raw]. rewrite Hattr.
  change (sizeof (ftype (MkCField 0 PacketHeader))) with 29%nat.
  cbn [ftype offset getfunc PacketHeader]. do 3 f_equal.
  unfold slice, size. rewrite drop_0, take_take. f_equal. lia.
Qed.

Lemma get_ok_header_witness :
  getattr (CData PacketEventData ftlp_event) "header"
  = Ok (PyCData (CData PacketHeader (take 29 ftlp_event)))
  /\ key_of (CData PacketHeader (take 29 ftlp_event)) = Ok (2023, 1, 3).
Proof.
  destruct (get_ok_header ftlp_event (CData PacketEventData ftlp_event))
    as (header & key & Hg & -> & Hk & HL).
  - vm_compute. reflexivity.
  - split; [exact Hg|]. rewrite Hk. vm_compute in Hk. symmetry. exact Hk.
Defined.

(** ** The bytes of a structure belong to its members *)

Lemma slice_app (off a b : nat) (bs : list byte) :
  (slice off a bs ++ slice (off + a) b bs)%list = slice off (a + b) bs.
Proof.
  unfold slice. rewrite <- (drop_drop bs a off). apply take_take_drop.
Qed.

Lemma struct_fields_tile name (fs : list (string * ctype)) (off : nat) (bs : list byte) :
  concat (map (fun nd : string * CField => slice (offset nd.2) (sizeof (ftype nd.2)) bs)
              (struct_fields fs off))
  = slice off (sizeof (Packet name fs)) bs.
Proof.
  revert off. induction fs as [|[k t] fs IH]; intros off.
  - unfold slice. by rewrite take_0.
  - change (sizeof (Packet name ((k, t) :: fs)))
      with (sizeof t + sizeof (Packet name fs))%nat.
    cbn [struct_fields map concat snd offset ftype]. rewrite IH. apply slice_app.
Qed.

(** X6: a structure is byte-packed.  In a record of a [Packet] class
    the members, taken in the order of [_fields_], each occupy exactly
    the size of their type and together make up the bytes of the record:
    no byte is skipped, none is shared, none is left over. *)
Theorem packet_members_tile (name : string) (fs : list (string * ctype)) (r : cdata) :
  instance_of (Packet name fs) r ->
  concat (member_bytes (Packet name fs) (raw r)) = raw r
  /\ map length (member_bytes (Packet name fs) (raw r)) = map (fun f => sizeof f.2) fs.
Proof.
  intros [_ Hl]%instance_of_inv. split.
  - unfold member_bytes. cbn [descriptors]. rewrite (struct_fields_tile name).
    unfold slice. rewrite drop_0. apply take_ge. lia.
  - unfold member_bytes. cbn [descriptors].
    assert (forall off, (off + sizeof (Packet name fs) <= length (raw r))%nat ->
              map length
                (map (fun nd : string * CField =>
                        slice (offset nd.2) (sizeof (ftype nd.2)) (raw r))
                     (struct_fields fs off))
              = map (fun f => sizeof f.2) fs) as H; [|apply H; lia].
    clear Hl. induction fs as [|[k t] fs IH]; intros off Hoff; [done|].
    change (sizeof (Packet name ((k, t) :: fs)))
      with (sizeof t + sizeof (Packet name fs))%nat in Hoff.
    cbn [struct_fields map snd offset ftype]. f_equal.
    + apply length_slice. lia.
    + apply IH. lia.
Qed.

Lemma packet_members_tile_witness :
  concat (member_bytes FastestLap (raw fastest_lap_sample)) = raw fastest_lap_sample
  /\ map length (member_bytes FastestLap (raw fastest_lap_sample)) = [1; 4]%nat.
Proof.
  apply (packet_members_tile "FastestLap").
  apply (instance_unpacked _ (raw fastest_lap_sample)). vm_compute; reflexivity.
Defined.

(** ** The keys of [to_dict] *)

Lemma dict_keys_set k v d :
  dict_keys (dict_set k v d)
  = if decide (k ∈ dict_keys d) then dict_keys d else (dict_keys d ++ [k])%list.
Proof.
  unfold dict_keys. induction d as [|[k' v'] d IH]; cbn [dict_set map fst app].
  - destruct (decide (k ∈ [])) as [H|_]; [by apply elem_of_nil in H|done].
  - destruct (String.eqb_spec k' k) as [->|Hne]; cbn [map fst].
    + destruct (decide (k ∈ k :: map fst d)) as [_|H]; [done|]. exfalso. apply H. left.
    + rewrite IH. destruct (decide (k ∈ map fst d)) as [Hin|Hnin];
        destruct (decide (k ∈ k' :: map fst d)) as [Hin'|Hnin']; try done.
      * exfalso. apply Hnin'. by right.
      * apply elem_of_cons in Hin' as [?|?]; congruence.
Qed.

Lemma dict_comprehension_keys f keys d0 d :
  dict_comprehension f keys d0 = Ok d ->
  NoDup (dict_keys d0) ->
  NoDup (dict_keys d)
  /\ (forall k, k ∈ dict_keys d <-> k ∈ dict_keys d0 \/ k ∈ keys)
  /\ (NoDup (dict_keys d0 ++ keys) -> dict_keys d = (dict_keys d0 ++ keys)%list).
Proof.
  revert d0. induction keys as [|k keys IH]; intros d0; simpl.
  - intros [= <-] Hnd. split; [done|]. split.
    + intros k. rewrite elem_of_nil. tauto.
    + by rewrite app_nil_r.
  - destruct (f k) as [v|] eqn:Hf; simpl; [|discriminate].
    intros Hc Hnd.
    assert (NoDup (dict_keys (dict_set k v d0))) as Hnd'.
    { rewrite dict_keys_set. destruct (decide _); [done|].
      apply NoDup_app. repeat split; [done| |apply NoDup_singleton].
      intros x Hx ->%list_elem_of_singleton. done. }
    destruct (IH _ Hc Hnd') as (H1 & H2 & H3). split; [done|]. split.
    + intros k'. rewrite H2, dict_keys_set, elem_of_cons.
      destruct (decide (k ∈ dict_keys d0)) as [Hin|Hnin].
      * split; [tauto|]. intros [?|[->|?]]; tauto.
      * rewrite elem_of_app, list_elem_of_singleton. tauto.
    + intros Hall. rewrite dict_keys_set in H3.
      apply NoDup_app in Hall as Hall'. destruct Hall' as (_ & Hdisj & _).
      rewrite decide_False in H3.
      * rewrite <- app_assoc in H3. apply H3. exact Hall.
      * intros Hin. apply (Hdisj k Hin). left.
Qed.

(** X7: the dict returned by [to_dict] has one key per distinct field
    name and no other key; when the names in [_fields_] are distinct
    (every class but [LapHistoryData]) the keys are the field names in
    declaration order. *)
Theorem to_dict_keys (self : cdata) (entries : list (string * pyvalue)) :
  to_dict self = Ok (PyDict entries) ->
  NoDup (dict_keys entries)
  /\ (forall k, k ∈ dict_keys entries <-> k ∈ map fst (_fields_ (cls self)))
  /\ (NoDup (map fst (_fields_ (cls self))) ->
      dict_keys entries = map fst (_fields_ (cls self))).
Proof.
  intros H.
  assert (has_to_dict (cls self) = true) as Hs.
  { unfold to_dict in H. destruct (has_to_dict (cls self)); [done|discriminate]. }
  rewrite to_dict_eq in H by done. unfold to_dict_body in H.
  destruct (dict_comprehension _ _ _) as [d|] eqn:Hc; [|discriminate].
  injection H as ->.
  apply dict_comprehension_keys in Hc as (H1 & H2 & H3); [|apply NoDup_nil_2].
  split; [done|]. split.
  - intros k. rewrite H2. cbn. rewrite elem_of_nil. tauto.
  - exact H3.
Qed.

Lemma to_dict_keys_witness :
  exists entries,
    to_dict fastest_lap_sample = Ok (PyDict entries)
    /\ dict_keys entries = ["vehicle_idx"; "lap_time"].
Proof.
  destruct (to_dict fastest_lap_sample) as [[| | | | |entries|]|] eqn:E;
    try (vm_compute in E; discriminate E).
  exists entries. split; [done|].
  destruct (to_dict_keys fastest_lap_sample entries E) as (_ & _ & H).
  apply H. apply (bool_decide_unpack _). vm_compute. exact I.
Defined.

(** ** When [to_dict] succeeds *)

Lemma dict_comprehension_ok f keys d0 :
  (forall k, k ∈ keys -> exists v, f k = Ok v) ->
  exists d, dict_comprehension f keys d0 = Ok d.
Proof.
  intros H. destruct (dict_comprehension f keys d0) as [d|e] eqn:Hc; [eauto|].
  apply dict_comprehension_raise_inv in Hc as (k & Hin & Hk).
  destruct (H k Hin) as [v Hv]. congruence.
Qed.

Lemma list_collect_ok f items :
  (forall v, v ∈ items -> exists v', f v = Ok v') ->
  exists vs, list_collect f items = Ok vs.
Proof.
  intros H. destruct (list_collect f items) as [vs|e] eqn:Hc; [eauto|].
  apply list_collect_raise_inv in Hc as (v & Hin & Hv).
  destruct (H v Hin) as [v' Hv']. congruence.
Qed.

Section Succeeds.
(** A property of instances that holds of whatever [to_dict] visits and
    makes every character buffer met on the way decodable. *)
Variable P : cdata -> Prop.
Hypothesis P_member : forall self field d,
  P self -> class_attr field (descriptors (cls self)) = Some d ->
  match getfunc (ftype d) (slice (offset d) (sizeof (ftype d)) (raw self)) with
  | PyBytes b => exists s, decode b = Ok s
  | PyCData c =>
      if is_array (cls c)
      then forall c', PyCData c' ∈ array_items c -> is_packet (cls c') = true -> P c'
      else has_to_dict (cls c) = true -> P c
  | _ => True
  end.

Lemma to_dict_succeeds (self : cdata) :
  has_to_dict (cls self) = true -> P self ->
  exists entries, to_dict self = Ok (PyDict entries).
Proof using P P_member.
  remember (nesting (cls self)) as n eqn:Hn. revert self Hn.
  induction (lt_wf n) as [n _ IH]. intros self -> Hs HP.
  rewrite to_dict_eq by done. unfold to_dict_body.
  edestruct (dict_comprehension_ok (get_value to_dict self)) as [d ->];
    [|simpl; eauto].
  intros k Hk. rewrite <- descriptors_names in Hk.
  apply class_attr_is_Some in Hk as [d Hd].
  specialize (P_member self k d HP Hd).
  unfold get_value, getattr. rewrite Hd. cbn [mbind result_bind].
  apply class_attr_elem, descriptors_field, nesting_fields in Hd.
  destruct (getfunc _ _) as [| |b| | | |c] eqn:Hv; simpl; eauto.
  - destruct P_member as [s ->]. simpl. eauto.
  - apply getfunc_cdata in Hv. destruct (is_array (cls c)) eqn:Ha.
    + unfold _format_array_type.
      edestruct list_collect_ok as [vs ->]; [|simpl; eauto].
      intros [| | | | | |c'] Hin; eauto.
      destruct (is_packet (cls c')) eqn:Hp; [|eauto].
      pose proof (array_items_cdata _ _ Hin) as Hnest.
      edestruct (IH (nesting (cls c'))) as [entries ->]; [|reflexivity| | |eauto].
      * rewrite Hnest, Hv. done.
      * by destruct (cls c').
      * by apply P_member.
    + destruct (has_to_dict (cls c)) eqn:Ht; [|eauto].
      edestruct (IH (nesting (cls c))) as [entries ->]; [|reflexivity|done| |eauto].
      * by rewrite Hv.
      * by apply P_member.
Qed.
End Succeeds.

Lemma text_free_fields (c : ctype) (k : string) (t : ctype) :
  text_free c = true -> (k, t) ∈ _fields_ c -> text_free t = true.
Proof.
  assert (forall fs : list (string * ctype),
            (fix all (fs : list (string * ctype)) : bool :=
               match fs with
               | [] => true
               | (_, ft) :: rest => text_free ft && all rest
               end) fs = true ->
            (k, t) ∈ fs -> text_free t = true) as Hfs.
  { induction fs as [|[k' t'] fs IH]; intros Hall Hin.
    - by apply elem_of_nil in Hin.
    - apply andb_prop in Hall as [Ht Hrest].
      apply elem_of_cons in Hin as [[= -> ->]|Hin]; eauto. }
  destruct c; simpl; intros Hc Hin; try (by apply elem_of_nil in Hin); eauto.
Qed.

(** X8: canonicalisation can only fail on text.  For a layout that holds
    no [c_char] at any depth (every registered packet except the
    participants and the lobby-info packets), [to_dict] returns a dict
    whatever bytes the record holds. *)
Theorem to_dict_total_without_text (self : cdata) :
  has_to_dict (cls self) = true ->
  text_free (cls self) = true ->
  exists entries, to_dict self = Ok (PyDict entries).
Proof.
  apply (to_dict_succeeds (fun c => text_free (cls c) = true)).
  intros c field d Hc Hd.
  apply class_attr_elem, descriptors_field in Hd.
  pose proof (text_free_fields _ _ _ Hc Hd) as Ht.
  destruct (getfunc _ _) as [| |b| | | |c'] eqn:Hv; try done.
  - destruct (ftype d) as [| | | | | | | | |[] ?| |]; simpl in Hv, Ht; discriminate.
  - apply getfunc_cdata in Hv. destruct (is_array (cls c')) eqn:Ha.
    + intros c'' Hin _. apply array_items_cdata in Hin as Hn.
      unfold array_items in Hin. rewrite Hv in Hin, Ha.
      destruct (ftype d) as [| | | | | | | | |elt n| |]; try discriminate.
      apply list_elem_of_fmap_1 in Hin as (i & Hi & _).
      symmetry in Hi. apply getfunc_cdata in Hi. by rewrite Hi.
    + intros _. by rewrite Hv.
Qed.

Lemma to_dict_total_without_text_witness :
  map (fun k => text_free <$> HEADER_FIELD_TO_PACKET_TYPE !! (2023, 1, k))
      [0; 1; 2; 3; 4; 5; 6; 7; 8; 9; 10; 11; 12; 13]
  = map Some [true; true; true; true; false; true; true; true; true; false;
              true; true; true; true]
  /\ exists entries, to_dict (CData PacketEventData unknown_code_event)
                     = Ok (PyDict entries).
Proof.
  split; [vm_compute; reflexivity|].
  apply to_dict_total_without_text; vm_compute; reflexivity.
Defined.

(** ** Integer members *)

Lemma int_from_bytes_le_range (bs : list byte) :
  0 <= int_from_bytes_le bs < 256 ^ Z.of_nat (length bs).
Proof.
  induction bs as [|b bs IH].
  - simpl. lia.
  - cbn [int_from_bytes_le length]. pose proof (byte_val_range b).
    rewrite Nat2Z.inj_succ, Z.pow_succ_r by lia. lia.
Qed.

Lemma getfunc_int_range (t : ctype) (bs : list byte) (lo hi : Z) :
  int_range t = Some (lo, hi) -> length bs = sizeof t ->
  exists v, getfunc t bs = PyInt v /\ lo <= v <= hi.
Proof.
  intros Hr Hl. pose proof (int_from_bytes_le_range bs) as Hb. rewrite Hl in Hb.
  destruct t; try discriminate; injection Hr as <- <-; simpl in Hb |- *;
    eexists; (split; [reflexivity|]); unfold to_signed;
    try destruct (_ <? _) eqn:E; try apply Z.ltb_lt in E; try apply Z.ltb_ge in E;
    lia.
Qed.

(** X9: an integer member of a record reads as a value of its C type
    (for example 0..255 for [c_uint8], -128..127 for [c_int8]), and
    [to_dict] carries that value over unchanged. *)
Theorem integer_member_in_range
    (L : ctype) (r : cdata) (field : string) (d : CField) (lo hi : Z) :
  instance_of L r ->
  class_attr field (descriptors (cls r)) = Some d ->
  int_range (ftype d) = Some (lo, hi) ->
  exists v,
    getattr r field = Ok (PyInt v)
    /\ lo <= v <= hi
    /\ forall entries, to_dict r = Ok (PyDict entries) ->
         dict_get field entries = Some (PyInt v).
Proof.
  intros [Hc Hl]%instance_of_inv Hd Hr.
  pose proof Hd as Hfit. apply class_attr_elem, descriptors_fit in Hfit.
  destruct (getfunc_int_range (ftype d)
              (slice (offset d) (sizeof (ftype d)) (raw r)) lo hi Hr)
    as (v & Hv & Hrange).
  { apply length_slice. rewrite Hc in Hfit. lia. }
  assert (getattr r field = Ok (PyInt v)) as Hg.
  { unfold getattr. by rewrite Hd, Hv. }
  exists v. split; [done|]. split; [done|].
  intros entries He. destruct (to_dict_entry _ _ _ _ Hd He) as (v' & Hgv & Hl').
  unfold get_value in Hgv. rewrite Hg in Hgv. simpl in Hgv. by injection Hgv as <-.
Qed.

Lemma integer_member_in_range_witness :
  exists header v,
    unpack PacketHeader unregistered_datagram = Ok header
    /\ getattr header "packet_format" = Ok (PyInt v)
    /\ -32768 <= v <= 32767.
Proof.
  exists (CData PacketHeader (take 29 unregistered_datagram)).
  assert (unpack PacketHeader unregistered_datagram
          = Ok (CData PacketHeader (take 29 unregistered_datagram))) as Hu
    by (vm_compute; reflexivity).
  destruct (integer_member_in_range PacketHeader _ "packet_format"
              (MkCField 0 c_int16) (-32768) 32767
              (instance_unpacked _ _ _ Hu) eq_refl eq_refl)
    as (v & Hg & Hr & _).
  exists v. split; [exact Hu|]. split; [exact Hg|exact Hr].
Defined.

(** ** Nested records and arrays *)

Lemma list_collect_raises f items v e :
  v ∈ items -> f v = Raise e -> exists e', list_collect f items = Raise e'.
Proof.
  induction items as [|v' items IH]; simpl.
  - intros H. by apply elem_of_nil in H.
  - intros [->|Hin]%elem_of_cons Hf.
    + rewrite Hf. simpl. eauto.
    + destruct (f v') as [w|]; simpl; [|eauto].
      destruct (IH Hin Hf) as [e' ->]. simpl. eauto.
Qed.

Lemma list_collect_Forall2 f items vs :
  list_collect f items = Ok vs -> Forall2 (fun v w => f v = Ok w) items vs.
Proof.
  revert vs. induction items as [|v items IH]; simpl; intros vs.
  - intros [= <-]. constructor.
  - destruct (f v) as [w|] eqn:Hf; simpl; [|discriminate].
    destruct (list_collect f items) as [ws|]; simpl; [|discriminate].
    intros [= <-]. constructor; eauto.
Qed.

Lemma getfunc_member (t : ctype) (bs : list byte) :
  has_to_dict t = true -> getfunc t bs = PyCData (CData t bs).
Proof. by destruct t. Qed.

(** X10: a member that is itself a structure or a union is rendered by
    its own [to_dict]: the dict of the record holds, under the member's
    name, the dict of the nested record, and an exception raised for the
    nested record makes [to_dict] of the record raise as well. *)
Theorem nested_member_canonicalisation
    (self : cdata) (field : string) (d : CField) :
  class_attr field (descriptors (cls self)) = Some d ->
  has_to_dict (ftype d) = true ->
  getattr self field = Ok (PyCData (member self d))
  /\ (forall entries, to_dict self = Ok (PyDict entries) ->
        exists v, to_dict (member self d) = Ok v
                  /\ dict_get field entries = Some v)
  /\ (forall e, to_dict (member self d) = Raise e ->
        exists p, to_dict self = Raise (UnicodeDecodeError p)).
Proof.
  intros Hd Ht.
  assert (getattr self field = Ok (PyCData (member self d))) as Hg.
  { unfold getattr, member. by rewrite Hd, getfunc_member. }
  assert (get_value to_dict self field = to_dict (member self d)) as Hv.
  { unfold get_value. rewrite Hg. cbn [mbind result_bind _format_type member cls].
    destruct (ftype d); try discriminate; reflexivity. }
  split; [done|]. split.
  - intros entries He. destruct (to_dict_entry _ _ _ _ Hd He) as (v & Hgv & Hl).
    rewrite Hv in Hgv. eauto.
  - intros e He. rewrite <- Hv in He. by eapply to_dict_raises.
Qed.

Lemma nested_member_canonicalisation_witness :
  exists header,
    getattr (CData PacketEventData ftlp_event) "header" = Ok (PyCData header)
    /\ (to_dict (CData PacketEventData ftlp_event) ≫= fun top => Ok (item "header" top))
       = (to_dict header ≫= fun v => Ok (Some v)).
Proof.
  destruct (nested_member_canonicalisation (CData PacketEventData ftlp_event)
              "header" (MkCField 0 PacketHeader) eq_refl eq_refl)
    as (Hg & Hok & _).
  eexists. split; [exact Hg|].
  destruct (to_dict (CData PacketEventData ftlp_event))
    as [[| | | | |entries|]|] eqn:E; try (vm_compute in E; discriminate E).
  destruct (Hok entries eq_refl) as (v & Hv & Hl). rewrite Hv. simpl. by rewrite Hl.
Defined.

Lemma array_items_member (self : cdata) (d : CField) (elt : ctype) (n : nat) :
  ftype d = Array elt n -> is_packet elt = true ->
  array_items (member self d)
  = map (fun i => PyCData (element self d elt i)) (seq 0 n).
Proof.
  intros Ht Hp. unfold array_items, member, element. cbn [cls raw]. rewrite Ht.
  apply map_ext. intros i. apply getfunc_member. by destruct elt.
Qed.

(** X11: a member that is an array of [n] structures is rendered as the
    list of the [n] dicts of its elements, in index order; an exception
    raised for any one element makes [to_dict] of the whole record
    raise. *)
Theorem record_array_canonicalisation
    (self : cdata) (field : string) (d : CField) (elt : ctype) (n : nat) :
  class_attr field (descriptors (cls self)) = Some d ->
  ftype d = Array elt n ->
  is_packet elt = true ->
  (forall entries, to_dict self = Ok (PyDict entries) ->
     exists vs, dict_get field entries = Some (PyList vs)
                /\ length vs = n
                /\ forall i v, vs !! i = Some v ->
                     to_dict (element self d elt i) = Ok v)
  /\ (forall i e, (i < n)%nat -> to_dict (element self d elt i) = Raise e ->
        exists p, to_dict self = Raise (UnicodeDecodeError p)).
Proof.
  intros Hd Ht Hp.
  assert (getattr self field = Ok (PyCData (member self d))) as Hg.
  { unfold getattr, member. rewrite Hd, Ht. by destruct elt. }
  assert (get_value to_dict self field = _format_array_type to_dict (member self d))
    as Hv.
  { unfold get_value. rewrite Hg.
    cbn [mbind result_bind _format_type member cls]. by rewrite Ht. }
  unfold _format_array_type in Hv.
  rewrite (array_items_member _ _ _ _ Ht Hp) in Hv.
  split.
  - intros entries He. destruct (to_dict_entry _ _ _ _ Hd He) as (v & Hgv & Hl).
    rewrite Hv in Hgv.
    destruct (list_collect _ _) as [vs|] eqn:Hc; [|discriminate].
    injection Hgv as <-. exists vs. split; [done|].
    apply list_collect_Forall2 in Hc.
    split.
    + apply Forall2_length in Hc. by rewrite length_map, length_seq in Hc.
    + intros i v Hi.
      destruct (Forall2_lookup_r _ _ _ _ _ Hc Hi) as (it & Hit & Hf).
      rewrite list_lookup_fmap in Hit.
      destruct (seq 0 n !! i) as [j|] eqn:Hj; [|discriminate].
      apply lookup_seq in Hj as [-> _]. injection Hit as <-.
      cbn [element cls] in Hf. by rewrite Hp in Hf.
  - intros i e Hi He.
    edestruct (list_collect_raises
                 (fun item => match item with
                              | PyCData c => if is_packet (cls c) then to_dict c else Ok item
                              | _ => Ok item
                              end)
                 (map (fun i => PyCData (element self d elt i)) (seq 0 n))
                 (PyCData (element self d elt i)) e) as [e' He'].
    + apply list_elem_of_fmap. exists i. split; [done|]. apply elem_of_seq. lia.
    + cbn [element cls]. by rewrite Hp.
    + eapply to_dict_raises; [exact Hd|]. rewrite Hv, He'. reflexivity.
Qed.

Lemma record_array_canonicalisation_witness :
  let packet := CData PacketParticipantsData (participants_datagram [77; 0xff; 120]) in
  let d := MkCField 30 (Array ParticipantData 22) in
  get (participants_datagram [77; 0xff; 120]) = Ok packet
  /\ to_dict (element packet d ParticipantData 21) = Raise (UnicodeDecodeError 1)
  /\ exists p, to_dict packet = Raise (UnicodeDecodeError p).
Proof.
  intros packet d. split; [vm_compute; reflexivity|].
  assert (to_dict (element packet d ParticipantData 21)
          = Raise (UnicodeDecodeError 1)) as He by (vm_compute; reflexivity).
  split; [exact He|].
  destruct (record_array_canonicalisation packet "participants" d
              ParticipantData 22 eq_refl eq_refl eq_refl) as [_ Hr].
  apply (Hr 21%nat (UnicodeDecodeError 1)); [lia|exact He].
Defined.

(** X12: a member that is an array of [n] numbers is rendered as the
    list of its [n] elements exactly as they read, in index order.  No
    rounding is applied to the elements of a float array, unlike a float
    member. *)
Theorem number_array_canonicalisation
    (self : cdata) (field : string) (d : CField) (elt : ctype) (n : nat) :
  class_attr field (descriptors (cls self)) = Some d ->
  ftype d = Array elt n ->
  int_range elt <> None \/ elt = c_float \/ elt = c_double ->
  let items := map (fun i => getfunc elt (slice (i * sizeof elt) (sizeof elt)
                                               (raw (member self d))))
                   (seq 0 n) in
  get_value to_dict self field = Ok (PyList items)
  /\ length items = n
  /\ forall entries, to_dict self = Ok (PyDict entries) ->
       dict_get field entries = Some (PyList items).
Proof.
  intros Hd Ht Helt items.
  assert (is_packet elt = false /\ elt <> c_char
          /\ forall bs c, getfunc elt bs <> PyCData c) as (Hp & Hc & Hnc).
  { destruct Helt as [H|[->| ->]]; [|by repeat split..].
    destruct elt; try (by exfalso; apply H); by repeat split. }
  assert (getattr self field = Ok (PyCData (member self d))) as Hg.
  { unfold getattr, member. rewrite Hd, Ht. by destruct elt. }
  assert (get_value to_dict self field = Ok (PyList items)) as Hv.
  { unfold get_value. rewrite Hg. subst items. unfold member. rewrite Ht.
    cbn [mbind result_bind _format_type cls raw is_array].
    unfold _format_array_type, array_items. cbn [cls raw].
    assert (forall l : list pyvalue,
              (forall v, v ∈ l -> forall c, v <> PyCData c) ->
              list_collect
                (fun item => match item with
                             | PyCData c => if is_packet (cls c) then to_dict c else Ok item
                             | _ => Ok item
                             end) l = Ok l) as Hl.
    { induction l as [|v l IH]; intros Hall; [done|]. cbn [list_collect].
      assert (forall c, v <> PyCData c) as Hvc by (apply Hall; left).
      destruct v; try (by exfalso; eapply Hvc);
        cbn [mbind result_bind]; rewrite IH; try done;
        intros v' Hv'; apply Hall; by right. }
    rewrite Hl; [done|].
    intros v Hin c ->. apply list_elem_of_fmap_1 in Hin as (i & Hi & _).
    symmetry in Hi. by apply Hnc in Hi. }
  split; [done|]. split.
  - unfold items. by rewrite length_map, length_seq.
  - intros entries He. destruct (to_dict_entry _ _ _ _ Hd He) as (v & Hgv & Hl).
    rewrite Hv in Hgv. by injection Hgv as <-.
Qed.

Lemma number_array_canonicalisation_witness :
  get_value to_dict
    (CData CarDamageData
           (bytes_of (f32_123_456789 ++ f32_123_456789 ++ repeat 0 34)))
    "tyres_wear"
  = Ok (PyList [ PyFloat (S754_finite false 8687499069095936 (-46));
                 PyFloat (S754_finite false 8687499069095936 (-46));
                 PyFloat (S754_zero false);
                 PyFloat (S754_zero false) ]).
Proof.
  destruct (number_array_canonicalisation
              (CData CarDamageData
                     (bytes_of (f32_123_456789 ++ f32_123_456789 ++ repeat 0 34)))
              "tyres_wear" (MkCField 0 (Array c_float 4)) c_float 4
              eq_refl eq_refl (or_intror (or_introl eq_refl))) as (Hv & _ & _).
  rewrite Hv. vm_compute. reflexivity.
Defined.

(** ** Text members *)

Lemma utf8_decode_ascii (bs : list byte) (pos : nat) :
  Forall ascii_byte bs -> utf8_decode pos bs = Ok (map byte_val bs).
Proof.
  intros H. revert pos. induction H as [|b bs Hb _ IH]; intros pos; [done|].
  cbn [utf8_decode map]. unfold ascii_byte in Hb.
  destruct (Z.ltb_spec (byte_val b) 128) as [_|?]; [|lia].
  by rewrite IH.
Qed.

Lemma until_nul_length (bs : list byte) : (length (until_nul bs) <= length bs)%nat.
Proof.
  induction bs as [|b bs IH]; simpl; [lia|].
  destruct (byte_val b =? 0); simpl; lia.
Qed.

(** X13: what a character buffer of width [n] is rendered as.  Whenever
    its rendering succeeds the result is a string of at most [n]
    characters, all of them Unicode scalar values and none of them NUL;
    and when the bytes before the first NUL are all ASCII the rendering
    succeeds and gives those bytes as characters, one for one. *)
Theorem text_member_rendering
    (self : cdata) (field : string) (d : CField) (n : nat) :
  class_attr field (descriptors (cls self)) = Some d ->
  ftype d = Array c_char n ->
  let stored := slice (offset d) (sizeof (ftype d)) (raw self) in
  (forall v, get_value to_dict self field = Ok v ->
     exists s, v = PyStr s
               /\ (length s <= n)%nat
               /\ Forall scalar_value s
               /\ Forall (fun c => c <> 0) s)
  /\ (Forall ascii_byte (until_nul stored) ->
      get_value to_dict self field = Ok (PyStr (map byte_val (until_nul stored)))).
Proof.
  intros Hd Ht stored.
  assert (get_value to_dict self field
          = (s ← decode (until_nul stored); Ok (PyStr s))) as Hv.
  { unfold get_value, getattr. rewrite Hd. subst stored. by rewrite Ht. }
  split.
  - intros v Hgv. rewrite Hv in Hgv.
    destruct (decode (until_nul stored)) as [s|] eqn:Hs; [|discriminate].
    injection Hgv as <-. exists s. split; [done|].
    apply utf8_decode_scalars in Hs as (Hlen & Hsc & Hnz).
    split; [|split; [done|apply Hnz, until_nul_no_nul]].
    pose proof (until_nul_length stored) as Hu.
    assert (length stored <= n)%nat; [|lia].
    subst stored. unfold slice. rewrite length_take, Ht. simpl. lia.
  - intros Ha. rewrite Hv. unfold decode. by rewrite utf8_decode_ascii.
Qed.

Lemma text_member_rendering_witness :
  get_value to_dict (participant_sample (ascii_codes "Max" ++ [0; 74; 114])) "name"
  = Ok (PyStr (ascii_codes "Max")).
Proof.
  destruct (text_member_rendering
              (participant_sample (ascii_codes "Max" ++ [0; 74; 114])) "name"
              (MkCField 7 (Array c_char 48)) 48 eq_refl eq_refl) as [_ Ha].
  rewrite Ha; [vm_compute; reflexivity|].
  vm_compute. repeat constructor.
Defined.

(** ** The shape of what [to_dict] returns *)

Lemma json_ready_list (items : list pyvalue) :
  json_ready (PyList items) = true <-> Forall (fun v => json_ready v = true) items.
Proof.
  cbn [json_ready]. induction items as [|v items IH].
  - split; [constructor|done].
  - rewrite andb_true_iff, IH, Forall_cons. done.
Qed.

Lemma json_ready_dict (entries : list (string * pyvalue)) :
  json_ready (PyDict entries) = true
  <-> Forall (fun e => json_ready e.2 = true) entries.
Proof.
  cbn [json_ready]. induction entries as [|[k v] entries IH].
  - split; [constructor|done].
  - rewrite andb_true_iff, IH, Forall_cons. done.
Qed.

Lemma dict_set_Forall (Q : pyvalue -> Prop) k v d :
  Q v -> Forall (fun e => Q e.2) d -> Forall (fun e => Q e.2) (dict_set k v d).
Proof.
  intros Hv. induction 1 as [|[k' v'] d Hh Ht IH]; cbn [dict_set].
  - by repeat constructor.
  - destruct (String.eqb k' k); constructor; done.
Qed.

Lemma dict_comprehension_Forall (Q : pyvalue -> Prop) f keys d0 d :
  dict_comprehension f keys d0 = Ok d ->
  (forall k v, k ∈ keys -> f k = Ok v -> Q v) ->
  Forall (fun e => Q e.2) d0 -> Forall (fun e => Q e.2) d.
Proof.
  revert d0. induction keys as [|k keys IH]; intros d0; simpl.
  - by intros [= <-].
  - destruct (f k) as [v|] eqn:Hf; simpl; [|discriminate].
    intros Hc HQ Hd0. apply (IH _ Hc).
    + intros k' v' Hin. apply HQ. by right.
    + apply dict_set_Forall; [|done]. apply (HQ k); [left|done].
Qed.

Lemma plain_arrays_fields (c : ctype) (k : string) (t : ctype) :
  plain_arrays c = true -> (k, t) ∈ _fields_ c -> plain_arrays t = true.
Proof.
  assert (forall fs : list (string * ctype),
            (fix all (fs : list (string * ctype)) : bool :=
               match fs with
               | [] => true
               | (_, ft) :: rest => plain_arrays ft && all rest
               end) fs = true ->
            (k, t) ∈ fs -> plain_arrays t = true) as Hfs.
  { induction fs as [|[k' t'] fs IH]; intros Hall Hin.
    - by apply elem_of_nil in Hin.
    - apply andb_prop in Hall as [Ht Hrest].
      apply elem_of_cons in Hin as [[= -> ->]|Hin]; eauto. }
  destruct c as [| | | | | | | | | |name fs|name fs]; cbn [_fields_];
    intros Hc Hin; try (by apply elem_of_nil in Hin).
  - exact (Hfs fs Hc Hin).
  - exact (Hfs fs Hc Hin).
Qed.

Lemma getfunc_shape (t : ctype) (bs : list byte) :
  match getfunc t bs with
  | PyStr _ | PyList _ | PyDict _ => False
  | _ => True
  end.
Proof. destruct t; simpl; try done. destruct t; done. Qed.

(** X14: what [to_dict] returns can be handed to [json.dumps].  For a
    layout whose arrays hold numbers, characters or structures (all the
    classes of [packets.py]), the value returned is made of ints,
    floats, strings, lists and dicts only: no [bytes] object and no
    ctypes instance is left in it, at any depth. *)
Theorem to_dict_json_ready (self : cdata) (v : pyvalue) :
  plain_arrays (cls self) = true ->
  to_dict self = Ok v ->
  json_ready v = true.
Proof.
  remember (nesting (cls self)) as n eqn:Hn. revert self v Hn.
  induction (lt_wf n) as [n _ IH]. intros self v -> Hpl H.
  assert (has_to_dict (cls self) = true) as Hs.
  { unfold to_dict in H. destruct (has_to_dict (cls self)); [done|discriminate]. }
  rewrite to_dict_eq in H by done. unfold to_dict_body in H.
  destruct (dict_comprehension _ _ _) as [d|] eqn:Hc; [|discriminate].
  injection H as <-. apply json_ready_dict.
  apply (dict_comprehension_Forall (fun v => json_ready v = true)) in Hc;
    [done| |constructor].
  intros k w Hk Hw. rewrite <- descriptors_names in Hk.
  apply class_attr_is_Some in Hk as [d' Hd].
  unfold get_value, getattr in Hw. rewrite Hd in Hw. cbn [mbind result_bind] in Hw.
  apply class_attr_elem, descriptors_field in Hd.
  pose proof (nesting_fields _ _ _ Hd) as Hnest.
  pose proof (plain_arrays_fields _ _ _ Hpl Hd) as Hplain.
  pose proof (getfunc_shape (ftype d')
                (slice (offset d') (sizeof (ftype d')) (raw self))) as Hshape.
  destruct (getfunc _ _) as [| |b| | | |c] eqn:Hv; cbn [_format_type] in Hw;
    try done; try (injection Hw as <-; done).
  - destruct (decode b); [|discriminate]. by injection Hw as <-.
  - pose proof Hv as Hv0. apply getfunc_cdata in Hv.
    destruct (is_array (cls c)) eqn:Ha.
    + unfold _format_array_type in Hw.
      destruct (list_collect _ _) as [vs|] eqn:Hl; [|discriminate].
      injection Hw as <-. apply json_ready_list.
      apply list_collect_Forall2 in Hl.
      apply Forall_forall. intros w Hwin.
      apply list_elem_of_lookup in Hwin as [i Hi].
      destruct (Forall2_lookup_r _ _ _ _ _ Hl Hi) as (it & Hit & Hf).
      apply list_elem_of_lookup_2 in Hit.
      unfold array_items in Hit. rewrite Hv in Hit, Ha.
      destruct (ftype d') as [| | | | | | | | |elt m| |]; try discriminate.
      apply list_elem_of_fmap_1 in Hit as (j & -> & _).
      destruct elt as [| | | | | | | | |elt' m'|name fs|name fs];
        cbn [getfunc cls is_packet] in Hf;
        try discriminate Hv0; try discriminate Hplain;
        try (injection Hf as <-; done).
      set (c' := CData (Packet name fs) _) in Hf.
      exact (IH _ Hnest c' w eq_refl Hplain Hf).
    + destruct (has_to_dict (cls c)) eqn:Ht.
      * eapply (IH (nesting (cls c))); [by rewrite Hv|reflexivity| |exact Hw].
        by rewrite Hv.
      * rewrite Hv in Ha, Ht. destruct (ftype d'); discriminate.
Qed.

Lemma to_dict_json_ready_witness :
  map (fun k => plain_arrays <$> HEADER_FIELD_TO_PACKET_TYPE !! (2023, 1, k))
      [0; 1; 2; 3; 4; 5; 6; 7; 8; 9; 10; 11; 12; 13]
  = repeat (Some true) 14
  /\ exists v, (get ftlp_event ≫= to_dict) = Ok v /\ json_ready v = true.
Proof.
  split; [vm_compute; reflexivity|].
  destruct (to_dict (CData PacketEventData ftlp_event)) as [v|] eqn:E;
    [|vm_compute in E; discriminate E].
  exists v. split.
  - transitivity (to_dict (CData PacketEventData ftlp_event)); [|exact E].
    assert (get ftlp_event = Ok (CData PacketEventData ftlp_event)) as ->
      by (vm_compute; reflexivity).
    reflexivity.
  - apply (to_dict_json_ready (CData PacketEventData ftlp_event)); [|exact E].
    vm_compute. reflexivity.
Defined.

(** ** The bytes of an array belong to its elements *)

Lemma slice_slice (a l1 off l2 : nat) (bs : list byte) :
  (a + l1 <= l2)%nat -> slice a l1 (slice off l2 bs) = slice (off + a) l1 bs.
Proof.
  intros H. unfold slice.
  replace l2 with (a + (l2 - a))%nat by lia.
  rewrite <- take_drop_commute, take_take, drop_drop. f_equal. lia.
Qed.

Lemma elements_tile (off sz : nat) (bs : list byte) (n k : nat) :
  concat (map (fun i => slice (off + i * sz) sz bs) (seq k n))
  = slice (off + k * sz) (n * sz) bs.
Proof.
  revert k. induction n as [|n IH]; intros k.
  - unfold slice. by rewrite take_0.
  - cbn [seq map concat]. rewrite IH.
    replace (off + S k * sz)%nat with (off + k * sz + sz)%nat by lia.
    rewrite slice_app. f_equal.
Qed.

(** X15: an array member is packed too.  Reading an array member of
    [n] elements and iterating it yields, as element [i], what the
    getter of the element type makes of the [sizeof(element)] bytes of
    the record that start at the offset of the member plus
    [i * sizeof(element)]; and these [n] ranges, in index order, make up
    the bytes of the member, with no gap and no overlap. *)
Theorem array_elements_tile
    (self : cdata) (field : string) (d : CField) (elt : ctype) (n : nat) :
  class_attr field (descriptors (cls self)) = Some d ->
  ftype d = Array elt n ->
  elt <> c_char ->
  exists a,
    getattr self field = Ok (PyCData a)
    /\ array_items a
       = map (fun i => getfunc elt (slice (offset d + i * sizeof elt)
                                          (sizeof elt) (raw self)))
             (seq 0 n)
    /\ concat (map (fun i => slice (offset d + i * sizeof elt)
                                   (sizeof elt) (raw self))
                   (seq 0 n))
       = raw a.
Proof.
  intros Hd Ht Hc.
  exists (CData (Array elt n) (slice (offset d) (n * sizeof elt) (raw self))).
  split; [|split].
  - unfold getattr. rewrite Hd, Ht.
    change (sizeof (Array elt n)) with (n * sizeof elt)%nat.
    by destruct elt.
  - unfold array_items. cbn [cls raw]. apply map_ext_in. intros i Hin.
    apply in_seq in Hin. f_equal. apply slice_slice. nia.
  - cbn [raw]. rewrite elements_tile. by rewrite Nat.mul_0_l, Nat.add_0_r.
Qed.

Lemma array_elements_tile_witness :
  exists a,
    getattr (CData PacketParticipantsData (participants_datagram [77; 0xff; 120]))
            "participants"
    = Ok (PyCData a)
    /\ array_items a !! 21%nat
       = Some (PyCData (participant_sample [77; 0xff; 120])).
Proof.
  destruct (array_elements_tile
              (CData PacketParticipantsData (participants_datagram [77; 0xff; 120]))
              "participants" (MkCField 30 (Array ParticipantData 22))
              ParticipantData 22 eq_refl eq_refl)
    as (a & Hg & Hi & _); [discriminate|].
  exists a. split; [exact Hg|]. rewrite Hi. vm_compute. reflexivity.
Defined.
